(** * Users and messages REST example: model of [app/models.py] and
      [app/main.py]

    The application keeps two in-memory collections, [fake_users_db] (a
    Python [dict] from user id to a user dictionary) and [fake_messages_db]
    (a Python [list]), together with two id counters.  Every endpoint of
    [app/main.py] is embedded as a function on an explicit [State]; the
    pydantic models and the [Path]/[Query] constraints of the endpoint
    signatures are embedded as validation functions.

    Conventions.
    - Python [int] is [Z]; [str] is [string], one [ascii] per character,
      read as the code points U+0000..U+00FF.
    - [datetime] values are [Z] timestamps; [datetime.now()] is the
      argument [now] of the operations that read the clock.
    - A Python [dict] is an association list in insertion order.
    - Logging is left out.  Of the configuration only the attribute names
      of [Config] are modelled: they decide whether a reference such as
      [config.app_name] in [root] and [get_app_info] succeeds. *)

From Stdlib Require Import ZArith List String Ascii Bool Lia.
From Stdlib Require Import Permutation Sorted.
Import ListNotations.

Local Open Scope string_scope.
Local Open Scope list_scope.
Local Open Scope Z_scope.

(* ================================================================= *)
(** ** Python built-ins used by the handlers *)

Module Py.

(** [len(s)] *)
Definition len (s : string) : Z := Z.of_nat (String.length s).

(** One character of [str.lower()]: the upper-case letters of the range
    U+0000..U+00FF are [A]..[Z] and U+00C0..U+00DE without the
    multiplication sign U+00D7; each is 32 below its lower-case form. *)
Definition lower_char (c : ascii) : ascii :=
  let n := N_of_ascii c in
  if ((65 <=? n) && (n <=? 90) ||
      (192 <=? n) && (n <=? 222) && negb (n =? 215))%N
  then ascii_of_N (n + 32)
  else c.

(** [s.lower()] *)
Fixpoint lower (s : string) : string :=
  match s with
  | EmptyString => EmptyString
  | String c s' => String (lower_char c) (lower s')
  end.

(** [b.startswith(a)] *)
Fixpoint startswith (a b : string) : bool :=
  match a, b with
  | EmptyString, _ => true
  | String x a', String y b' => Ascii.eqb x y && startswith a' b'
  | String _ _, EmptyString => false
  end.

(** [a in b] on strings: [a] occurs in [b] as a contiguous substring. *)
Fixpoint str_in (a b : string) : bool :=
  startswith a b ||
  match b with
  | EmptyString => false
  | String _ b' => str_in a b'
  end.

(** Truth value of an [Optional[str]]: [None] and [""] are false. *)
Definition truthy_str (o : option string) : bool :=
  match o with
  | None => false
  | Some EmptyString => false
  | Some (String _ _) => true
  end.

(** Truth value of an [Optional[int]]: [None] and [0] are false. *)
Definition truthy_int (o : option Z) : bool :=
  match o with
  | None => false
  | Some n => negb (n =? 0)
  end.

(** Normalisation of one slice bound against a sequence of length
    [n]: negative bounds count from the end, everything is clamped to
    [0..n]. *)
Definition slice_index (n i : Z) : Z :=
  if i <? 0 then Z.max (n + i) 0 else Z.min i n.

(** [l[start:stop]]; an omitted bound is [None]. *)
Definition slice {A : Type} (l : list A) (start stop : option Z) : list A :=
  let n := Z.of_nat (List.length l) in
  let lo := match start with None => 0 | Some i => slice_index n i end in
  let hi := match stop with None => n | Some i => slice_index n i end in
  firstn (Z.to_nat (hi - lo)) (skipn (Z.to_nat lo) l).

(** Stable insertion of [x] into a list sorted by ascending [key]: [x]
    goes in front of the first element whose key is not smaller. *)
Fixpoint insert_by {A : Type} (key : A -> Z) (x : A) (l : list A) : list A :=
  match l with
  | [] => [x]
  | y :: r => if key x <=? key y then x :: l else y :: insert_by key x r
  end.

(** Stable ascending sort by [key]. *)
Fixpoint sort_by {A : Type} (key : A -> Z) (l : list A) : list A :=
  match l with
  | [] => []
  | x :: r => insert_by key x (sort_by key r)
  end.

(** [l.sort(key=key, reverse=reverse)] as a function of the list's
    contents.  [list.sort] is stable; with [reverse=True] it reverses
    the list, sorts it, and reverses the outcome, so that equal keys
    keep their original order. *)
Definition sorted_by {A : Type} (key : A -> Z) (reverse : bool)
           (l : list A) : list A :=
  if reverse then rev (sort_by key (rev l)) else sort_by key l.

(** *** [dict] with integer keys, in insertion order *)

Definition dict (V : Type) : Type := list (Z * V).

(** [d.get(k)] *)
Fixpoint get {V : Type} (k : Z) (d : dict V) : option V :=
  match d with
  | [] => None
  | (k', v) :: r => if k =? k' then Some v else get k r
  end.

(** [k in d] *)
Definition contains {V : Type} (k : Z) (d : dict V) : bool :=
  match get k d with Some _ => true | None => false end.

(** [d[k] = v]: an existing key keeps its position, a new key goes to
    the end. *)
Fixpoint setitem {V : Type} (k : Z) (v : V) (d : dict V) : dict V :=
  match d with
  | [] => [(k, v)]
  | (k', v') :: r =>
      if k =? k' then (k, v) :: r else (k', v') :: setitem k v r
  end.

(** In-place mutation [f] of the object stored under [k]
    ([d[k][field] = x]); the dictionary itself is not restructured. *)
Fixpoint modify {V : Type} (k : Z) (f : V -> V) (d : dict V) : dict V :=
  match d with
  | [] => []
  | (k', v) :: r =>
      if k =? k' then (k', f v) :: r else (k', v) :: modify k f r
  end.

(** [del d[k]] *)
Fixpoint delitem {V : Type} (k : Z) (d : dict V) : dict V :=
  match d with
  | [] => []
  | (k', v) :: r => if k =? k' then r else (k', v) :: delitem k r
  end.

(** [d.keys()] and [d.values()], in insertion order *)
Definition keys {V : Type} (d : dict V) : list Z := map fst d.
Definition values {V : Type} (d : dict V) : list V := map snd d.

(** A Python [dict] holds each key once. *)
Definition wf {V : Type} (d : dict V) : Prop := NoDup (keys d).

(** *** A store of list objects

    [list.sort] works in place, so whether the handler sorts the global
    list or a copy of it depends on which object its local variable
    refers to.  List objects live in a store indexed by location. *)

Definition lists (A : Type) : Type := list (list A).

Definition deref {A : Type} (h : lists A) (p : nat) : list A :=
  nth p h [].

(** A fresh list object holding [l]. *)
Definition alloc {A : Type} (l : list A) (h : lists A) : nat * lists A :=
  (List.length h, h ++ [l]).

(** [p.copy()] *)
Definition copy {A : Type} (p : nat) (h : lists A) : nat * lists A :=
  alloc (deref h p) h.

Fixpoint assign {A : Type} (p : nat) (l : list A) (h : lists A) : lists A :=
  match h, p with
  | [], _ => []
  | _ :: r, O => l :: r
  | x :: r, S p' => x :: assign p' l r
  end.

(** [p.sort(key=key, reverse=reverse)] *)
Definition sort {A : Type} (p : nat) (key : A -> Z) (reverse : bool)
           (h : lists A) : lists A :=
  assign p (sorted_by key reverse (deref h p)) h.

End Py.

(* ================================================================= *)
(** ** [app/models.py]: pydantic models *)

(** A violated field constraint. *)
Inductive Constraint : Type :=
| missing
| min_length (n : Z)
| max_length (n : Z)
| ge (n : Z)
| le (n : Z)
| regex.

(** One validation error: the offending field and the constraint. *)
Definition FieldError : Type := (string * Constraint)%type.

(** The length constraints of a [str] field, checked in the order
    [min_length], [max_length]; the first violation is reported.  A bound
    that is not declared is [None]. *)
Definition check_max_length (field : string) (hi : option Z)
           (s : string) : list FieldError :=
  match hi with
  | Some m => if m <? Py.len s then [(field, max_length m)] else []
  | None => []
  end.

Definition check_length (field : string) (lo hi : option Z)
           (s : string) : list FieldError :=
  match lo with
  | Some n =>
      if Py.len s <? n then [(field, min_length n)]
      else check_max_length field hi s
  | None => check_max_length field hi s
  end.

(** [Field(..., min_length=lo, max_length=hi)] on a required [str]. *)
Definition check_str (field : string) (lo hi : option Z)
           (v : option string) : list FieldError :=
  match v with
  | None => [(field, missing)]
  | Some s => check_length field lo hi s
  end.

(** The same on an [Optional[str]] with default [None]. *)
Definition check_opt_str (field : string) (lo hi : option Z)
           (v : option string) : list FieldError :=
  match v with
  | None => []
  | Some s => check_length field lo hi s
  end.

(** The dictionaries stored in [fake_users_db]; [User] is also the
    response model of the user endpoints. *)
Module User.
Record t : Type := mk {
  id : Z;
  username : string;
  email : string;
  is_active : bool;
  created_at : Z
}.
End User.

Module UserCreate.
Record t : Type := mk {
  username : string;
  email : string;
  password : string
}.

(** The request body before validation: a field is absent or a string. *)
Record raw : Type := mk_raw {
  raw_username : option string;
  raw_email : option string;
  raw_password : option string
}.

(** [@validator('password')] *)
Definition validate_password (v : string) : list FieldError :=
  if Py.len v <? 6 then [("password", min_length 6)] else [].

(** [UserBase]: [username] is [Field(..., min_length=3, max_length=50)],
    [email] is [Field(...)]; [UserCreate] adds [password] with
    [Field(..., min_length=6)] and the validator, which runs only on a
    value that passed the field constraint. *)
Definition errors (r : raw) : list FieldError :=
  check_str "username" (Some 3) (Some 50) (raw_username r) ++
  check_str "email" None None (raw_email r) ++
  match check_str "password" (Some 6) None (raw_password r) with
  | [] => match raw_password r with
          | Some v => validate_password v
          | None => []
          end
  | e => e
  end.

Definition validate (r : raw) : list FieldError + t :=
  match errors r, raw_username r, raw_email r, raw_password r with
  | [], Some u, Some e, Some p => inr (mk u e p)
  | es, _, _, _ => inl es
  end.
End UserCreate.

Module UserUpdate.
(** Every field is [Optional] with default [None]; an absent field and a
    [null] one both arrive as [None]. *)
Record t : Type := mk {
  username : option string;
  email : option string;
  is_active : option bool
}.

Definition errors (r : t) : list FieldError :=
  check_opt_str "username" (Some 3) (Some 50) (username r).

Definition validate (r : t) : list FieldError + t :=
  match errors r with
  | [] => inr r
  | es => inl es
  end.
End UserUpdate.

Module Message.
Record t : Type := mk {
  id : Z;
  user_id : Z;
  content : string;
  created_at : Z
}.
End Message.

Module MessageCreate.
Record t : Type := mk { content : string }.

Record raw : Type := mk_raw { raw_content : option string }.

Definition errors (r : raw) : list FieldError :=
  check_str "content" (Some 1) (Some 1000) (raw_content r).

Definition validate (r : raw) : list FieldError + t :=
  match errors r, raw_content r with
  | [], Some c => inr (mk c)
  | es, _ => inl es
  end.
End MessageCreate.

(* ================================================================= *)
(** ** [app/main.py]: the store and the endpoints *)

(** The [detail] of an [HTTPException]. *)
Inductive Detail : Type :=
| user_id_not_found (user_id : Z)
| username_not_found (username : string)
| email_exists.

Inductive Error : Type :=
| HTTPException (status_code : Z) (detail : Detail)
| RequestValidationError (errors : list FieldError)
| KeyError (key : Z)
| AttributeError (name : string).

(** [app/config.py]: the attributes of a [Config] object are the fields
    of the dataclass. *)
Definition Config_attributes : list string :=
  ["app"; "db"; "secret_key"; "debug"].

(** [config.name]: the reference succeeds for an attribute of [Config]
    and raises [AttributeError] for every other name.  The value read is
    not modelled. *)
Definition config_attr (name : string) : Error + unit :=
  if existsb (String.eqb name) Config_attributes
  then inr tt
  else inl (AttributeError name).

(** Evaluation in sequence: the first exception ends it. *)
Definition and_then {A B : Type} (r : Error + A) (k : A -> Error + B)
  : Error + B :=
  match r with
  | inl e => inl e
  | inr a => k a
  end.

Definition HTTP_400_BAD_REQUEST : Z := 400.
Definition HTTP_404_NOT_FOUND : Z := 404.

(** The module-level variables. *)
Record State : Type := mkState {
  fake_users_db : Py.dict User.t;
  fake_messages_db : list Message.t;
  user_id_counter : Z;
  message_id_counter : Z
}.

(** The state after import; [t1] and [t2] are the two clock readings of
    the dictionary literal. *)
Definition seed (t1 t2 : Z) : State :=
  {| fake_users_db :=
       [ (1, User.mk 1 "vasya" "vasya@example.com" true t1);
         (2, User.mk 2 "katya" "katya@example.com" true t2) ];
     fake_messages_db := [];
     user_id_counter := 3;
     message_id_counter := 1 |}.

Definition with_users (st : State) (db : Py.dict User.t) : State :=
  {| fake_users_db := db;
     fake_messages_db := fake_messages_db st;
     user_id_counter := user_id_counter st;
     message_id_counter := message_id_counter st |}.

(** Assignments to one key of a user dictionary. *)
Definition set_username (x : string) (u : User.t) : User.t :=
  User.mk (User.id u) x (User.email u) (User.is_active u) (User.created_at u).
Definition set_email (x : string) (u : User.t) : User.t :=
  User.mk (User.id u) (User.username u) x (User.is_active u)
          (User.created_at u).
Definition set_is_active (x : bool) (u : User.t) : User.t :=
  User.mk (User.id u) (User.username u) (User.email u) x (User.created_at u).

(** [fake_users_db[user_id]] *)
Definition getitem (user_id : Z) (db : Py.dict User.t) : Error + User.t :=
  match Py.get user_id db with
  | Some u => inr u
  | None => inl (KeyError user_id)
  end.

Definition not_found (user_id : Z) : Error :=
  HTTPException HTTP_404_NOT_FOUND (user_id_not_found user_id).

(** [GET /users/{user_id}] *)
Definition get_user_by_id (st : State) (user_id : Z) : Error + User.t :=
  if negb (Py.contains user_id (fake_users_db st))
  then inl (not_found user_id)
  else getitem user_id (fake_users_db st).

(** [GET /users/by-username/{username}] *)
Definition get_user_by_username (st : State) (username : string)
  : Error + User.t :=
  match find (fun user => (User.username user =? username)%string)
             (Py.values (fake_users_db st)) with
  | Some user => inr user
  | None => inl (HTTPException HTTP_404_NOT_FOUND
                               (username_not_found username))
  end.

(** [DELETE /users/{user_id}] *)
Definition delete_user (st : State) (user_id : Z) : (Error + Z) * State :=
  if negb (Py.contains user_id (fake_users_db st))
  then (inl (not_found user_id), st)
  else (inr user_id, with_users st (Py.delitem user_id (fake_users_db st))).

(** [GET /users/] *)
Definition get_users (st : State) (limit skip : Z) (active_only : bool)
           (username_contains : option string) : list User.t :=
  let users_list := Py.values (fake_users_db st) in
  let users_list :=
    if active_only then filter (fun u => User.is_active u) users_list
    else users_list in
  let users_list :=
    if Py.truthy_str username_contains
    then filter (fun u =>
                   Py.str_in
                     (Py.lower (match username_contains with
                                | Some s => s
                                | None => ""
                                end))
                     (Py.lower (User.username u)))
                users_list
    else users_list in
  Py.slice users_list (Some skip) (Some (skip + limit)).

(** [GET /messages/].  Location [0] of the object store is
    [fake_messages_db]; the local variable [messages] is a location. *)
Definition get_messages (st : State) (user_id : option Z) (limit : Z)
           (sort_by_date : string) : list Message.t * State :=
  let h := [fake_messages_db st] in
  let '(messages, h) := Py.copy 0%nat h in
  let '(messages, h) :=
    if Py.truthy_int user_id
    then Py.alloc
           (filter (fun m => match user_id with
                             | Some i => Message.user_id m =? i
                             | None => false
                             end)
                   (Py.deref h messages)) h
    else (messages, h) in
  let h :=
    if (sort_by_date =? "desc")%string
    then Py.sort messages Message.created_at true h
    else Py.sort messages Message.created_at false h in
  (Py.slice (Py.deref h messages) None (Some limit),
   {| fake_users_db := fake_users_db st;
      fake_messages_db := Py.deref h 0%nat;
      user_id_counter := user_id_counter st;
      message_id_counter := message_id_counter st |}).

(** [POST /users/] *)
Definition create_user (now : Z) (st : State) (user : UserCreate.t)
  : (Error + User.t) * State :=
  if existsb (fun existing_user =>
                (User.email existing_user =? UserCreate.email user)%string)
             (Py.values (fake_users_db st))
  then (inl (HTTPException HTTP_400_BAD_REQUEST email_exists), st)
  else
    let new_user :=
      User.mk (user_id_counter st) (UserCreate.username user)
              (UserCreate.email user) true now in
    (inr new_user,
     {| fake_users_db :=
          Py.setitem (user_id_counter st) new_user (fake_users_db st);
        fake_messages_db := fake_messages_db st;
        user_id_counter := user_id_counter st + 1;
        message_id_counter := message_id_counter st |}).

(** [POST /users/{user_id}/messages/] *)
Definition create_message_for_user (now : Z) (st : State) (user_id : Z)
           (message : MessageCreate.t) : (Error + Message.t) * State :=
  if negb (Py.contains user_id (fake_users_db st))
  then (inl (not_found user_id), st)
  else
    let new_message :=
      Message.mk (message_id_counter st) user_id
                 (MessageCreate.content message) now in
    (inr new_message,
     {| fake_users_db := fake_users_db st;
        fake_messages_db := fake_messages_db st ++ [new_message];
        user_id_counter := user_id_counter st;
        message_id_counter := message_id_counter st + 1 |}).

(** [PUT /users/{user_id}] *)
Definition update_user_full (st : State) (user_id : Z)
           (user_update : UserCreate.t) : (Error + User.t) * State :=
  if negb (Py.contains user_id (fake_users_db st))
  then (inl (not_found user_id), st)
  else
    let db := fake_users_db st in
    let db := Py.modify user_id
                (set_username (UserCreate.username user_update)) db in
    let db := Py.modify user_id
                (set_email (UserCreate.email user_update)) db in
    (getitem user_id db, with_users st db).

(** [PATCH /users/{user_id}].  [user_data] is the object stored under
    [user_id], so each assignment to it is a mutation of that entry. *)
Definition update_user_partial (st : State) (user_id : Z)
           (user_update : UserUpdate.t) : (Error + User.t) * State :=
  if negb (Py.contains user_id (fake_users_db st))
  then (inl (not_found user_id), st)
  else
    let db := fake_users_db st in
    let db := match UserUpdate.username user_update with
              | Some x => Py.modify user_id (set_username x) db
              | None => db
              end in
    let db := match UserUpdate.email user_update with
              | Some x => Py.modify user_id (set_email x) db
              | None => db
              end in
    let db := match UserUpdate.is_active user_update with
              | Some x => Py.modify user_id (set_is_active x) db
              | None => db
              end in
    (getitem user_id db, with_users st db).

(** [GET /search/] *)
Definition search_users (st : State) (q : string) (limit : Z)
           (include_inactive : bool) : list User.t :=
  let results :=
    fold_left
      (fun results user =>
         if Py.str_in (Py.lower q) (Py.lower (User.username user)) ||
            Py.str_in (Py.lower q) (Py.lower (User.email user))
         then if include_inactive || User.is_active user
              then results ++ [user]
              else results
         else results)
      (Py.values (fake_users_db st)) [] in
  Py.slice results None (Some limit).

(** [GET /]: the returned dictionary is built from [config.app_name]
    and [config.app_version], in this order. *)
Definition root : Error + unit :=
  and_then (config_attr "app_name") (fun _ =>
  and_then (config_attr "app_version") (fun _ =>
  inr tt)).

(** [GET /info]: the returned dictionary is built from
    [config.app_name], [config.app_version], [config.debug],
    [config.database_url] and the two totals, in this order.  The
    module-level construction of [app] (main.py 16-21) makes the same
    references; it is not part of the model of the handlers. *)
Definition get_app_info (st : State) : Error + (Z * Z) :=
  and_then (config_attr "app_name") (fun _ =>
  and_then (config_attr "app_version") (fun _ =>
  and_then (config_attr "debug") (fun _ =>
  and_then (config_attr "database_url") (fun _ =>
  inr (Z.of_nat (List.length (fake_users_db st)),
       Z.of_nat (List.length (fake_messages_db st))))))).

(* ================================================================= *)
(** ** The constraints declared in the endpoint signatures *)

(** [ge=n] and [le=n] on an [int] parameter. *)
Definition check_ge (field : string) (n v : Z) : list FieldError :=
  if v <? n then [(field, ge n)] else [].
Definition check_le (field : string) (n v : Z) : list FieldError :=
  if n <? v then [(field, le n)] else [].

(** [Path(..., ge=1)] on [user_id]. *)
Definition check_user_id (user_id : Z) : list FieldError :=
  check_ge "user_id" 1 user_id.

Definition newline : string := String (ascii_of_nat 10) EmptyString.

(** [regex="^(asc|desc)$"], matched from the start of the value; [$]
    matches at the end of the value and also just before a newline that
    ends it. *)
Definition check_sort_by_date (v : string) : list FieldError :=
  if ((v =? "asc") || (v =? "desc") ||
      (v =? "asc" ++ newline) || (v =? "desc" ++ newline))%string
  then [] else [("sort_by_date", regex)].

(** The value of a query parameter declared with a default. *)
Definition default {A : Type} (d : A) (o : option A) : A :=
  match o with
  | Some v => v
  | None => d
  end.

(** A request: the endpoint with its path, query and body parameters.  A
    query parameter that has a default is [None] when the request omits
    it. *)
Inductive Request : Type :=
| GET_root
| GET_user (user_id : Z)
| GET_user_by_username (username : string)
| DELETE_user (user_id : Z)
| GET_users (limit skip : option Z) (active_only : option bool)
            (username_contains : option string)
| GET_messages (user_id limit : option Z) (sort_by_date : option string)
| POST_user (body : UserCreate.raw)
| POST_message (user_id : Z) (body : MessageCreate.raw)
| PUT_user (user_id : Z) (body : UserCreate.raw)
| PATCH_user (user_id : Z) (body : UserUpdate.t)
| GET_search (q : option string) (limit : option Z)
             (include_inactive : option bool)
| GET_info.

Inductive Response : Type :=
| root_response
| user_response (user : User.t)
| users_response (users : list User.t)
| message_response (message : Message.t)
| messages_response (messages : list Message.t)
| deleted_response (user_id : Z)
| info_response (total_users total_messages : Z)
| error_response (e : Error).

Definition respond {A : Type} (ok : A -> Response) (r : Error + A)
  : Response :=
  match r with
  | inr a => ok a
  | inl e => error_response e
  end.

(** The parameter and body errors of a request, parameters first. *)
Definition request_errors (r : Request) : list FieldError :=
  match r with
  | GET_root | GET_info => []
  | GET_user user_id | DELETE_user user_id => check_user_id user_id
  | GET_user_by_username username =>
      check_length "username" (Some 3) (Some 50) username
  | GET_users limit skip _ username_contains =>
      check_ge "limit" 1 (default 10 limit) ++
      check_le "limit" 100 (default 10 limit) ++
      check_ge "skip" 0 (default 0 skip) ++
      check_opt_str "username_contains" (Some 1) None username_contains
  | GET_messages user_id limit sort_by_date =>
      match user_id with
      | Some i => check_user_id i
      | None => []
      end ++
      check_ge "limit" 1 (default 20 limit) ++
      check_le "limit" 100 (default 20 limit) ++
      check_sort_by_date (default "desc" sort_by_date)
  | POST_user body => UserCreate.errors body
  | POST_message user_id body =>
      check_user_id user_id ++ MessageCreate.errors body
  | PUT_user user_id body => check_user_id user_id ++ UserCreate.errors body
  | PATCH_user user_id body =>
      check_user_id user_id ++ UserUpdate.errors body
  | GET_search q limit _ =>
      check_str "q" (Some 2) None q ++
      check_ge "limit" 1 (default 10 limit) ++
      check_le "limit" 50 (default 10 limit)
  end.

Definition invalid (st : State) (es : list FieldError) : Response * State :=
  (error_response (RequestValidationError es), st).

(** One request served at clock reading [now]: a request that violates a
    declared constraint never reaches its handler; otherwise the response
    is what the handler returns or raises.  The serialisation of a
    returned value through [response_model] is not part of the model. *)
Definition serve (now : Z) (st : State) (r : Request) : Response * State :=
  match request_errors r with
  | (_ :: _) as es => invalid st es
  | [] =>
      match r with
      | GET_root => (respond (fun _ => root_response) root, st)
      | GET_info =>
          (respond (fun totals => info_response (fst totals) (snd totals))
                   (get_app_info st), st)
      | GET_user user_id =>
          (respond user_response (get_user_by_id st user_id), st)
      | GET_user_by_username username =>
          (respond user_response (get_user_by_username st username), st)
      | DELETE_user user_id =>
          let '(res, st') := delete_user st user_id in
          (respond deleted_response res, st')
      | GET_users limit skip active_only username_contains =>
          (users_response
             (get_users st (default 10 limit) (default 0 skip)
                        (default false active_only) username_contains), st)
      | GET_messages user_id limit sort_by_date =>
          let '(res, st') :=
            get_messages st user_id (default 20 limit)
                         (default "desc" sort_by_date) in
          (messages_response res, st')
      | POST_user body =>
          match UserCreate.validate body with
          | inr user =>
              let '(res, st') := create_user now st user in
              (respond user_response res, st')
          | inl es => invalid st es
          end
      | POST_message user_id body =>
          match MessageCreate.validate body with
          | inr message =>
              let '(res, st') :=
                create_message_for_user now st user_id message in
              (respond message_response res, st')
          | inl es => invalid st es
          end
      | PUT_user user_id body =>
          match UserCreate.validate body with
          | inr user_update =>
              let '(res, st') := update_user_full st user_id user_update in
              (respond user_response res, st')
          | inl es => invalid st es
          end
      | PATCH_user user_id body =>
          let '(res, st') := update_user_partial st user_id body in
          (respond user_response res, st')
      | GET_search q limit include_inactive =>
          (users_response
             (search_users st (default "" q) (default 10 limit)
                           (default false include_inactive)), st)
      end
  end.

(** A run: the requests served one after the other, each with its clock
    reading. *)
Fixpoint run (st : State) (reqs : list (Z * Request)) : State :=
  match reqs with
  | [] => st
  | (now, r) :: rest => run (snd (serve now st r)) rest
  end.

(** The states the application can be in. *)
Inductive reachable : State -> Prop :=
| reachable_seed (t1 t2 : Z) : reachable (seed t1 t2)
| reachable_serve (st : State) (now : Z) (r : Request) :
    reachable st -> reachable (snd (serve now st r)).

Definition user_ids (st : State) : list Z :=
  map User.id (Py.values (fake_users_db st)).
Definition message_ids (st : State) : list Z :=
  map Message.id (fake_messages_db st).

(* ================================================================= *)
(** ** The listings as the specification words them *)

(** User listing: the active-only filter, then the case-insensitive
    substring filter on [username], then the window. *)
Definition users_listing (users : list User.t) (limit skip : Z)
           (active_only : bool) (username_contains : option string)
  : list User.t :=
  let kept :=
    filter (fun u => if active_only then User.is_active u else true) users in
  let kept :=
    filter (fun u => match username_contains with
                     | Some s => Py.str_in (Py.lower s)
                                           (Py.lower (User.username u))
                     | None => true
                     end) kept in
  firstn (Z.to_nat limit) (skipn (Z.to_nat skip) kept).

(** Message listing: the messages the [user_id] filter keeps. *)
Definition messages_of (user_id : option Z) (messages : list Message.t)
  : list Message.t :=
  match user_id with
  | Some i => filter (fun m => Message.user_id m =? i) messages
  | None => messages
  end.

(** Search: whether [user] matches the query [q]. *)
Definition search_match (q : string) (include_inactive : bool)
           (user : User.t) : bool :=
  (Py.str_in (Py.lower q) (Py.lower (User.username user)) ||
   Py.str_in (Py.lower q) (Py.lower (User.email user))) &&
  (include_inactive || User.is_active user).

Definition search_listing (users : list User.t) (q : string) (limit : Z)
           (include_inactive : bool) : list User.t :=
  firstn (Z.to_nat limit) (filter (search_match q include_inactive) users).

(** The two orders of [sort_by_date]. *)
Definition ascending {A : Type} (key : A -> Z) (a b : A) : Prop :=
  key a <= key b.
Definition descending {A : Type} (key : A -> Z) (a b : A) : Prop :=
  key b <= key a.

(** [s] occurs in [t] when case is ignored. *)
Definition occurs_ci (s t : string) : Prop :=
  exists before after : string,
    Py.lower t = (before ++ Py.lower s ++ after)%string.

(** A sign-up request for [name]. *)
Definition signup (name : string) : Z * Request :=
  (0, POST_user (UserCreate.mk_raw (Some name)
                   (Some (name ++ "@example.com")%string)
                   (Some "secret"))).

(** The seed store after ten sign-ups: twelve users. *)
Definition twelve_users : State :=
  run (seed 0 0)
      (map signup ["anna"; "boris"; "vera"; "gleb"; "dasha"; "egor";
                   "zhenya"; "zoya"; "ivan"; "kirill"]).

(** The seed store after three messages, posted at clock readings 5, 9
    and 5 for users 1, 2 and 1. *)
Definition three_messages : State :=
  run (seed 0 0)
      [ (5, POST_message 1 (MessageCreate.mk_raw (Some "first")));
        (9, POST_message 2 (MessageCreate.mk_raw (Some "second")));
        (5, POST_message 1 (MessageCreate.mk_raw (Some "third"))) ].

(** What a partial update makes of a user: each field the payload
    carries replaces the stored one. *)
Definition patched (user_update : UserUpdate.t) (u : User.t) : User.t :=
  User.mk (User.id u)
          (default (User.username u) (UserUpdate.username user_update))
          (default (User.email u) (UserUpdate.email user_update))
          (default (User.is_active u) (UserUpdate.is_active user_update))
          (User.created_at u).

(** What a full update makes of a user. *)
Definition replaced (user_update : UserCreate.t) (u : User.t) : User.t :=
  User.mk (User.id u) (UserCreate.username user_update)
          (UserCreate.email user_update) (User.is_active u)
          (User.created_at u).

(** What one request can do to the state: nothing, a creation, a
    deletion, or a mutation of one user that keeps its [id]. *)
Inductive effect (st : State) : State -> Prop :=
| effect_none : effect st st
| effect_create_user now user :
    effect st (snd (create_user now st user))
| effect_create_message now user_id message :
    effect st (snd (create_message_for_user now st user_id message))
| effect_delete user_id :
    effect st (with_users st (Py.delitem user_id (fake_users_db st)))
| effect_modify user_id f :
    (forall u, User.id (f u) = User.id u) ->
    effect st (with_users st (Py.modify user_id f (fake_users_db st))).

(** The conflict error of create-user. *)
Definition conflict : Error := HTTPException HTTP_400_BAD_REQUEST email_exists.

(** The state of the seed store after [PATCH /users/1] with
    [{"is_active": false}]. *)
Definition seed_vasya_inactive : State :=
  snd (update_user_partial (seed 0 0) 1
         (UserUpdate.mk None None (Some false))).

(** The store invariant behind the id claims: every entry is filed under
    its own id, keys are not repeated, and every id in use is below its
    counter. *)
Record store_ok (st : State) : Prop := {
  ok_keys : Py.wf (fake_users_db st);
  ok_self : forall k u, In (k, u) (fake_users_db st) -> User.id u = k;
  ok_user_bound :
    forall k, In k (Py.keys (fake_users_db st)) -> k < user_id_counter st;
  ok_messages : NoDup (message_ids st);
  ok_message_bound :
    forall i, In i (message_ids st) -> i < message_id_counter st
}.

(** The constraint of [UserBase.username] on a stored user and that of
    [MessageCreate.content] on a stored message. *)
Definition valid_user (u : User.t) : Prop :=
  3 <= Py.len (User.username u) <= 50.
Definition valid_message (m : Message.t) : Prop :=
  1 <= Py.len (Message.content m) <= 1000.

(** The endpoints whose handler assigns to the store: [DELETE], [POST],
    [PUT] and [PATCH]. *)
Definition mutating (r : Request) : bool :=
  match r with
  | DELETE_user _ | POST_user _ | POST_message _ _
  | PUT_user _ _ | PATCH_user _ _ => true
  | _ => false
  end.

(* ================================================================= *)
(** ** Facts about the built-ins *)

Section Strings.

Lemma startswith_app (a s : string) : Py.startswith a (a ++ s) = true.
Proof.
  induction a as [|c a IH]; simpl; [reflexivity|].
  now rewrite Ascii.eqb_refl, IH.
Qed.

Lemma startswith_inv (a b : string) :
  Py.startswith a b = true -> exists s : string, b = (a ++ s)%string.
Proof.
  revert b; induction a as [|c a IH]; intros b H.
  - now exists b.
  - destruct b as [|d b]; simpl in H; [discriminate|].
    apply andb_true_iff in H as [Hc Hr].
    apply Ascii.eqb_eq in Hc; subst d.
    destruct (IH b Hr) as [s ->].
    now exists s.
Qed.

Lemma str_in_startswith (a b : string) :
  Py.startswith a b = true -> Py.str_in a b = true.
Proof. intros H. destruct b; simpl; now rewrite H. Qed.

(** [a in b] holds exactly when [b] splits around a copy of [a]. *)
Lemma str_in_spec (a b : string) :
  Py.str_in a b = true <->
  exists before after : string, b = (before ++ a ++ after)%string.
Proof.
  split.
  - induction b as [|c b IH]; simpl; intros H.
    + rewrite orb_false_r in H.
      destruct (startswith_inv _ _ H) as [s Hs].
      now exists EmptyString, s.
    + apply orb_true_iff in H as [H|H].
      * destruct (startswith_inv _ _ H) as [s Hs].
        now exists EmptyString, s.
      * destruct (IH H) as (p & s & ->).
        now exists (String c p), s.
  - intros (p & s & ->).
    induction p as [|c p IH]; simpl.
    + apply str_in_startswith, startswith_app.
    + rewrite IH. apply orb_true_r.
Qed.

Lemma str_in_empty (b : string) : Py.str_in "" b = true.
Proof. destruct b; reflexivity. Qed.

Lemma str_in_occurs_ci (s t : string) :
  Py.str_in (Py.lower s) (Py.lower t) = true <-> occurs_ci s t.
Proof. apply str_in_spec. Qed.

End Strings.

Section Slices.

Context {A : Type}.

(** A window with non-negative bounds: drop [skip], take [limit]. *)
Lemma slice_window (l : list A) (skip limit : Z) :
  0 <= skip -> 0 <= limit ->
  Py.slice l (Some skip) (Some (skip + limit)) =
  firstn (Z.to_nat limit) (skipn (Z.to_nat skip) l).
Proof.
  intros Hs Hl. unfold Py.slice, Py.slice_index.
  set (n := Z.of_nat (List.length l)).
  assert (Hn : 0 <= n) by (subst n; lia).
  destruct (skip <? 0) eqn:E1; [lia|].
  destruct (skip + limit <? 0) eqn:E2; [lia|].
  destruct (Z_le_gt_dec n skip) as [Hge|Hlt].
  - rewrite (skipn_all2 l) by (subst n; lia).
    rewrite (skipn_all2 l) by (subst n; lia).
    now rewrite !firstn_nil.
  - replace (Z.min skip n) with skip by lia.
    set (r := skipn (Z.to_nat skip) l).
    assert (Hr : Z.of_nat (List.length r) = n - skip).
    { subst r n. rewrite length_skipn. lia. }
    destruct (Z_le_gt_dec (skip + limit) n) as [Hin|Hout].
    + replace (Z.min (skip + limit) n - skip) with limit by lia.
      reflexivity.
    + replace (Z.min (skip + limit) n - skip) with (n - skip) by lia.
      rewrite !firstn_all2 by lia. reflexivity.
Qed.

(** A prefix slice with a non-negative bound. *)
Lemma slice_prefix (l : list A) (limit : Z) :
  0 <= limit -> Py.slice l None (Some limit) = firstn (Z.to_nat limit) l.
Proof.
  intros Hl. unfold Py.slice, Py.slice_index.
  destruct (limit <? 0) eqn:E; [lia|].
  simpl skipn. rewrite Z.sub_0_r.
  destruct (Z_le_gt_dec limit (Z.of_nat (List.length l))).
  - now replace (Z.min limit (Z.of_nat (List.length l))) with limit by lia.
  - replace (Z.min limit (Z.of_nat (List.length l)))
      with (Z.of_nat (List.length l)) by lia.
    rewrite !firstn_all2 by lia. reflexivity.
Qed.

End Slices.

Section Sorting.

Context {A : Type} (key : A -> Z).

Lemma insert_by_perm (x : A) (l : list A) :
  Permutation (Py.insert_by key x l) (x :: l).
Proof.
  induction l as [|y r IH]; simpl; [reflexivity|].
  destruct (key x <=? key y); [reflexivity|].
  rewrite IH. apply perm_swap.
Qed.

Lemma sort_by_perm (l : list A) : Permutation (Py.sort_by key l) l.
Proof.
  induction l as [|x r IH]; simpl; [reflexivity|].
  rewrite insert_by_perm. now constructor.
Qed.

Lemma insert_by_sorted (x : A) (l : list A) :
  StronglySorted (ascending key) l ->
  StronglySorted (ascending key) (Py.insert_by key x l).
Proof.
  induction 1 as [|y r Hr IH Hy]; simpl.
  - repeat constructor.
  - destruct (key x <=? key y) eqn:E.
    + apply Z.leb_le in E.
      constructor; [now constructor|].
      constructor; [exact E|].
      eapply Forall_impl; [|exact Hy].
      unfold ascending; intros; lia.
    + apply Z.leb_gt in E.
      constructor; [exact IH|].
      rewrite (Forall_forall (ascending key y)).
      intros z Hz.
      apply (Permutation_in _ (insert_by_perm x r)) in Hz.
      destruct Hz as [<-|Hz]; [unfold ascending; lia|].
      rewrite Forall_forall in Hy. now apply Hy.
Qed.

Lemma sort_by_sorted (l : list A) :
  StronglySorted (ascending key) (Py.sort_by key l).
Proof.
  induction l as [|x r IH]; simpl; [constructor|].
  now apply insert_by_sorted.
Qed.

(** Insertion never moves [x] past an element with the same key. *)
Lemma insert_by_stable (k : Z) (x : A) (l : list A) :
  filter (fun a => key a =? k) (Py.insert_by key x l) =
  filter (fun a => key a =? k) (x :: l).
Proof.
  induction l as [|y r IH]; [reflexivity|].
  cbn [Py.insert_by].
  destruct (key x <=? key y) eqn:E; [reflexivity|].
  apply Z.leb_gt in E.
  cbn [filter] in *. rewrite IH.
  destruct (key x =? k) eqn:Ex, (key y =? k) eqn:Ey; try reflexivity.
  apply Z.eqb_eq in Ex, Ey. lia.
Qed.

Lemma sort_by_stable (k : Z) (l : list A) :
  filter (fun a => key a =? k) (Py.sort_by key l) =
  filter (fun a => key a =? k) l.
Proof.
  induction l as [|x r IH]; [reflexivity|].
  cbn [Py.sort_by]. rewrite insert_by_stable.
  cbn [filter]. now rewrite IH.
Qed.

Lemma sorted_snoc (R : A -> A -> Prop) (l : list A) (a : A) :
  StronglySorted R l -> Forall (fun b => R b a) l ->
  StronglySorted R (l ++ [a]).
Proof.
  induction 1 as [|b r Hr IH Hb]; intros Ha; simpl.
  - repeat constructor.
  - inversion Ha; subst.
    constructor; [now apply IH|].
    apply Forall_app. split; [exact Hb | now constructor].
Qed.

Lemma sorted_rev (l : list A) :
  StronglySorted (ascending key) l -> StronglySorted (descending key) (rev l).
Proof.
  induction 1 as [|a r Hr IH Ha]; simpl; [constructor|].
  apply sorted_snoc; [exact IH|].
  rewrite Forall_forall in *.
  intros b Hb. apply In_rev in Hb. now apply Ha.
Qed.

(** [list.sort] permutes the list, ... *)
Lemma sorted_by_perm (reverse : bool) (l : list A) :
  Permutation (Py.sorted_by key reverse l) l.
Proof.
  destruct reverse; simpl; [|apply sort_by_perm].
  rewrite <- Permutation_rev, sort_by_perm.
  symmetry. apply Permutation_rev.
Qed.

(** ... orders it by [key], ... *)
Lemma sorted_by_order (reverse : bool) (l : list A) :
  StronglySorted (if reverse then descending key else ascending key)
                 (Py.sorted_by key reverse l).
Proof.
  destruct reverse; simpl; [|apply sort_by_sorted].
  apply sorted_rev, sort_by_sorted.
Qed.

(** ... and keeps elements with equal keys in their original order. *)
Lemma sorted_by_stable (reverse : bool) (k : Z) (l : list A) :
  filter (fun a => key a =? k) (Py.sorted_by key reverse l) =
  filter (fun a => key a =? k) l.
Proof.
  destruct reverse; simpl; [|apply sort_by_stable].
  now rewrite filter_rev, sort_by_stable, filter_rev, rev_involutive.
Qed.

End Sorting.

Section Dicts.

Context {V : Type}.
Implicit Types (d : Py.dict V) (k : Z) (v : V).

Lemma contains_get k d :
  Py.contains k d = true <-> exists v, Py.get k d = Some v.
Proof.
  unfold Py.contains. destruct (Py.get k d) as [v|].
  - split; [now exists v | reflexivity].
  - split; [discriminate | now intros [v Hv]].
Qed.

Lemma contains_false_get k d :
  Py.contains k d = false <-> Py.get k d = None.
Proof.
  unfold Py.contains. destruct (Py.get k d); split; congruence.
Qed.

Lemma contains_keys k d : Py.contains k d = true <-> In k (Py.keys d).
Proof.
  unfold Py.contains.
  induction d as [|[k' v'] r IH]; simpl.
  - split; [discriminate | contradiction].
  - destruct (k =? k') eqn:E.
    + apply Z.eqb_eq in E. subst. split; auto.
    + apply Z.eqb_neq in E. rewrite IH.
      split; [now right | intros [H|H]; [congruence | exact H]].
Qed.

Lemma keys_modify k (f : V -> V) d : Py.keys (Py.modify k f d) = Py.keys d.
Proof.
  induction d as [|[k' v'] r IH]; simpl; [reflexivity|].
  destruct (k =? k'); simpl; [reflexivity | now rewrite IH].
Qed.

Lemma get_modify_same k (f : V -> V) d :
  Py.get k (Py.modify k f d) = option_map f (Py.get k d).
Proof.
  induction d as [|[k' v'] r IH]; simpl; [reflexivity|].
  destruct (k =? k') eqn:E; simpl; rewrite E; [reflexivity | exact IH].
Qed.

Lemma get_modify_other k k' (f : V -> V) d :
  k' <> k -> Py.get k' (Py.modify k f d) = Py.get k' d.
Proof.
  intros Hne.
  induction d as [|[k0 v0] r IH]; simpl; [reflexivity|].
  destruct (k =? k0) eqn:E; simpl.
  - apply Z.eqb_eq in E. subst k0.
    destruct (k' =? k) eqn:E'; [apply Z.eqb_eq in E'; contradiction|].
    reflexivity.
  - destruct (k' =? k0); [reflexivity | exact IH].
Qed.

(** An entry of a modified dictionary is an old entry, possibly changed
    by [f] when it is filed under [k]. *)
Lemma In_modify k k' v' (f : V -> V) d :
  In (k', v') (Py.modify k f d) ->
  exists v, In (k', v) d /\ (v' = v \/ (k' = k /\ v' = f v)).
Proof.
  induction d as [|[k0 v0] r IH]; simpl; [contradiction|].
  destruct (k =? k0) eqn:E; simpl.
  - apply Z.eqb_eq in E. subst k0.
    intros [H|H].
    + injection H as <- <-. exists v0. auto.
    + exists v'. auto.
  - intros [H|H].
    + injection H as <- <-. exists v0. auto.
    + destruct (IH H) as (v & Hv & Hc). exists v. auto.
Qed.

(** Storing under a key that is not in use appends the entry. *)
Lemma setitem_fresh k v d :
  ~ In k (Py.keys d) -> Py.setitem k v d = d ++ [(k, v)].
Proof.
  induction d as [|[k' v'] r IH]; simpl; [reflexivity|].
  intros Hk. destruct (k =? k') eqn:E.
  - apply Z.eqb_eq in E. subst. exfalso. auto.
  - rewrite IH; auto.
Qed.

Lemma In_delitem k k' v' d : In (k', v') (Py.delitem k d) -> In (k', v') d.
Proof.
  induction d as [|[k0 v0] r IH]; simpl; [contradiction|].
  destruct (k =? k0); [now right|].
  intros [H|H]; [now left | right; now apply IH].
Qed.

Lemma In_keys_delitem k k' d :
  In k' (Py.keys (Py.delitem k d)) -> In k' (Py.keys d).
Proof.
  unfold Py.keys. rewrite !in_map_iff.
  intros ([k0 v0] & <- & H). exists (k0, v0).
  split; [reflexivity | now apply In_delitem in H].
Qed.

Lemma wf_delitem k d : Py.wf d -> Py.wf (Py.delitem k d).
Proof.
  unfold Py.wf.
  induction d as [|[k0 v0] r IH]; simpl; [auto|].
  intros Hnd. inversion Hnd as [|? ? Hk Hr]; subst.
  destruct (k =? k0); [exact Hr|].
  simpl. constructor; [|now apply IH].
  intros H. apply Hk. now apply In_keys_delitem in H.
Qed.

(** After [del d[k]] the key is gone. *)
Lemma delitem_gone k d : Py.wf d -> ~ In k (Py.keys (Py.delitem k d)).
Proof.
  unfold Py.wf.
  induction d as [|[k0 v0] r IH]; simpl; [auto|].
  intros Hnd. inversion Hnd as [|? ? Hk Hr]; subst.
  destruct (k =? k0) eqn:E.
  - apply Z.eqb_eq in E. now subst.
  - apply Z.eqb_neq in E. simpl. intros [H|H]; [congruence|].
    now apply IH.
Qed.

End Dicts.

(* ================================================================= *)
(** ** Creating users *)

Lemma email_scan (email : string) (users : list User.t) :
  existsb (fun existing_user => (User.email existing_user =? email)%string)
          users = true <->
  exists existing_user,
    In existing_user users /\ User.email existing_user = email.
Proof.
  rewrite existsb_exists.
  split; intros (u & Hin & He); exists u; split; auto;
    now apply String.eqb_eq.
Qed.

Lemma create_user_taken (now : Z) (st : State) (user : UserCreate.t) :
  (exists existing_user,
      In existing_user (Py.values (fake_users_db st)) /\
      User.email existing_user = UserCreate.email user) ->
  create_user now st user = (inl conflict, st).
Proof.
  intros H. apply email_scan in H.
  unfold create_user. now rewrite H.
Qed.

Lemma create_user_free (now : Z) (st : State) (user : UserCreate.t) :
  (forall existing_user,
      In existing_user (Py.values (fake_users_db st)) ->
      User.email existing_user <> UserCreate.email user) ->
  create_user now st user =
  (inr (User.mk (user_id_counter st) (UserCreate.username user)
                (UserCreate.email user) true now),
   {| fake_users_db :=
        Py.setitem (user_id_counter st)
          (User.mk (user_id_counter st) (UserCreate.username user)
                   (UserCreate.email user) true now)
          (fake_users_db st);
      fake_messages_db := fake_messages_db st;
      user_id_counter := user_id_counter st + 1;
      message_id_counter := message_id_counter st |}).
Proof.
  intros H. unfold create_user.
  destruct (existsb _ _) eqn:E; [|reflexivity].
  apply email_scan in E as (u & Hin & He).
  now apply H in Hin.
Qed.

Lemma validate_inr_errors (body : UserCreate.raw) (user : UserCreate.t) :
  UserCreate.validate body = inr user -> UserCreate.errors body = [].
Proof.
  unfold UserCreate.validate.
  destruct (UserCreate.errors body); [reflexivity | discriminate].
Qed.

(** C1.  A create-user call whose email equals, character for character,
    the email of a stored user is rejected with the conflict error and
    leaves the whole state as it was, also when it arrives as a request
    with a valid body; a call whose email equals no stored email raises no
    conflict and returns the new user.  Letter case is not normalised: over the seed store, ["Vasya@example.com"] does not
    collide with ["vasya@example.com"]. *)
Theorem create_user_conflict_iff_email_stored
        (now : Z) (st : State) (user : UserCreate.t) :
  ((exists existing_user,
       In existing_user (Py.values (fake_users_db st)) /\
       User.email existing_user = UserCreate.email user) ->
   create_user now st user = (inl conflict, st)) /\
  ((forall existing_user,
       In existing_user (Py.values (fake_users_db st)) ->
       User.email existing_user <> UserCreate.email user) ->
   fst (create_user now st user) =
   inr (User.mk (user_id_counter st) (UserCreate.username user)
                (UserCreate.email user) true now)) /\
  (forall body,
      UserCreate.validate body = inr user ->
      (exists existing_user,
          In existing_user (Py.values (fake_users_db st)) /\
          User.email existing_user = UserCreate.email user) ->
      serve now st (POST_user body) = (error_response conflict, st)) /\
  (forall t1 t2,
      fst (create_user now (seed t1 t2)
             (UserCreate.mk "vasya2" "Vasya@example.com" "secret")) =
      inr (User.mk 3 "vasya2" "Vasya@example.com" true now)).
Proof.
  split; [apply create_user_taken|].
  split; [|split; [|reflexivity]].
  - intros H. now rewrite create_user_free.
  - intros body Hv H.
    unfold serve. cbn [request_errors].
    rewrite (validate_inr_errors _ _ Hv), Hv.
    now rewrite (create_user_taken _ _ _ H).
Qed.

Lemma create_user_conflict_iff_email_stored_witness :
  serve 7 (seed 0 0)
    (POST_user (UserCreate.mk_raw (Some "vasya2") (Some "vasya@example.com")
                                  (Some "secret"))) =
  (error_response conflict, seed 0 0) /\
  create_user 7 (seed 0 0)
    (UserCreate.mk "vasya2" "vasya@example.com" "secret") =
  (inl conflict, seed 0 0) /\
  fst (create_user 7 (seed 0 0)
         (UserCreate.mk "masha" "masha@example.com" "secret")) =
  inr (User.mk 3 "masha" "masha@example.com" true 7).
Proof.
  destruct (create_user_conflict_iff_email_stored 7 (seed 0 0)
              (UserCreate.mk "vasya2" "vasya@example.com" "secret"))
    as (Htaken & _ & Hreq & _).
  destruct (create_user_conflict_iff_email_stored 7 (seed 0 0)
              (UserCreate.mk "masha" "masha@example.com" "secret"))
    as (_ & Hfree & _).
  split; [|split].
  - apply (Hreq (UserCreate.mk_raw (Some "vasya2")
                   (Some "vasya@example.com") (Some "secret")) eq_refl).
    exists (User.mk 1 "vasya" "vasya@example.com" true 0).
    split; [simpl; auto | reflexivity].
  - apply Htaken.
    exists (User.mk 1 "vasya" "vasya@example.com" true 0).
    split; [simpl; auto | reflexivity].
  - apply Hfree.
    intros u [<-|[<-|[]]]; discriminate.
Defined.

(** C2, as stated, fails: the store holds an inactive user with email
    ["vasya@example.com"] and no active user with that email, and the
    create-user call with that email is still rejected. *)
Lemma create_user_inactive_email_counterexample :
  (exists u, In u (Py.values (fake_users_db seed_vasya_inactive)) /\
             User.is_active u = false /\
             User.email u = "vasya@example.com") /\
  (forall u, In u (Py.values (fake_users_db seed_vasya_inactive)) ->
             User.is_active u = true ->
             User.email u <> "vasya@example.com") /\
  create_user 7 seed_vasya_inactive
    (UserCreate.mk "vasya2" "vasya@example.com" "secret") =
  (inl conflict, seed_vasya_inactive).
Proof.
  split; [|split].
  - exists (User.mk 1 "vasya" "vasya@example.com" false 0).
    repeat split. simpl. auto.
  - intros u [<-|[<-|[]]]; simpl; intros H; discriminate.
  - reflexivity.
Qed.

(** C2, amended.  The email check of create-user looks at every stored
    user, active or inactive: when the store holds a user with email [e],
    whatever its [is_active] and whether or not an active user has that
    email, a create-user call with email [e] is rejected with the conflict
    error and the state stays as it was. *)
Theorem create_user_conflict_whatever_is_active
        (now : Z) (st : State) (user : UserCreate.t) (u : User.t) :
  In u (Py.values (fake_users_db st)) ->
  User.email u = UserCreate.email user ->
  create_user now st user = (inl conflict, st).
Proof.
  intros Hin He. apply create_user_taken. now exists u.
Qed.

Lemma create_user_conflict_whatever_is_active_witness :
  create_user 7 seed_vasya_inactive
    (UserCreate.mk "vasya2" "vasya@example.com" "secret") =
  (inl conflict, seed_vasya_inactive) /\
  create_user 7 seed_vasya_inactive
    (UserCreate.mk "katya2" "katya@example.com" "secret") =
  (inl conflict, seed_vasya_inactive).
Proof.
  split.
  - apply (create_user_conflict_whatever_is_active 7 seed_vasya_inactive
             (UserCreate.mk "vasya2" "vasya@example.com" "secret")
             (User.mk 1 "vasya" "vasya@example.com" false 0)).
    + simpl. auto.
    + reflexivity.
  - apply (create_user_conflict_whatever_is_active 7 seed_vasya_inactive
             (UserCreate.mk "katya2" "katya@example.com" "secret")
             (User.mk 2 "katya" "katya@example.com" true 0)).
    + simpl. auto.
    + reflexivity.
Defined.

(** C3, as stated, fails: a create-user payload whose email is the empty
    string passes validation, and the endpoint stores the user. *)
Lemma validate_empty_email_counterexample :
  UserCreate.validate
    (UserCreate.mk_raw (Some "vasya2") (Some "") (Some "secret")) =
  inr (UserCreate.mk "vasya2" "" "secret") /\
  fst (serve 7 (seed 0 0)
         (POST_user
            (UserCreate.mk_raw (Some "vasya2") (Some "") (Some "secret")))) =
  user_response (User.mk 3 "vasya2" "" true 7).
Proof. split; reflexivity. Qed.

Lemma check_length_ok (field : string) (lo hi : option Z) (s : string) :
  (forall n, lo = Some n -> n <= Py.len s) ->
  (forall m, hi = Some m -> Py.len s <= m) ->
  check_length field lo hi s = [].
Proof.
  intros Hlo Hhi.
  assert (Hmax : check_max_length field hi s = []).
  { unfold check_max_length. destruct hi as [m|]; [|reflexivity].
    specialize (Hhi m eq_refl).
    destruct (m <? Py.len s) eqn:E; [apply Z.ltb_lt in E; lia|].
    reflexivity. }
  unfold check_length. destruct lo as [n|]; [|exact Hmax].
  specialize (Hlo n eq_refl).
  destruct (Py.len s <? n) eqn:E; [apply Z.ltb_lt in E; lia | exact Hmax].
Qed.

Lemma UserCreate_errors_ok (u e p : string) :
  3 <= Py.len u <= 50 -> 6 <= Py.len p ->
  UserCreate.errors (UserCreate.mk_raw (Some u) (Some e) (Some p)) = [].
Proof.
  intros Hu Hp. unfold UserCreate.errors, check_str.
  cbn [UserCreate.raw_username UserCreate.raw_email UserCreate.raw_password].
  rewrite (check_length_ok "username") by (intros ? [= <-]; lia).
  rewrite (check_length_ok "email") by discriminate.
  rewrite (check_length_ok "password")
    by ((intros ? [= <-]; lia) || discriminate).
  unfold UserCreate.validate_password.
  destruct (Py.len p <? 6) eqn:E; [apply Z.ltb_lt in E; lia|].
  reflexivity.
Qed.

Lemma UserCreate_validate_ok (u e p : string) :
  3 <= Py.len u <= 50 -> 6 <= Py.len p ->
  UserCreate.validate (UserCreate.mk_raw (Some u) (Some e) (Some p)) =
  inr (UserCreate.mk u e p).
Proof.
  intros Hu Hp. unfold UserCreate.validate.
  now rewrite UserCreate_errors_ok.
Qed.

(** C3, amended.  At creation the email is required to be present and is
    otherwise unconstrained: a payload with a username of 3 to 50
    characters and a password of at least 6 is accepted with any email
    string, the empty one included, and a payload without an email field is
    rejected with an error that names [email] as missing. *)
Theorem create_payload_email_required_only (r : UserCreate.raw) :
  (forall u e p,
      r = UserCreate.mk_raw (Some u) (Some e) (Some p) ->
      3 <= Py.len u <= 50 -> 6 <= Py.len p ->
      UserCreate.validate r = inr (UserCreate.mk u e p)) /\
  (UserCreate.raw_email r = None ->
   exists es, UserCreate.validate r = inl es /\ In ("email", missing) es).
Proof.
  split.
  - intros u e p -> Hu Hp. now apply UserCreate_validate_ok.
  - intros He. exists (UserCreate.errors r).
    assert (Hin : In ("email", missing) (UserCreate.errors r)).
    { unfold UserCreate.errors. rewrite He.
      apply in_or_app. right. simpl. now left. }
    split; [|exact Hin].
    unfold UserCreate.validate. rewrite He.
    destruct (UserCreate.errors r) as [|x es]; [contradiction|].
    now destruct (UserCreate.raw_username r).
Qed.

Lemma create_payload_email_required_only_witness :
  UserCreate.validate
    (UserCreate.mk_raw (Some "vasya2") (Some "") (Some "secret")) =
  inr (UserCreate.mk "vasya2" "" "secret") /\
  exists es,
    UserCreate.validate
      (UserCreate.mk_raw (Some "vasya2") None (Some "secret")) = inl es /\
    In ("email", missing) es.
Proof.
  split.
  - apply (proj1 (create_payload_email_required_only
                    (UserCreate.mk_raw (Some "vasya2") (Some "")
                                       (Some "secret")))
             "vasya2" "" "secret" eq_refl).
    + vm_compute. split; discriminate.
    + vm_compute. discriminate.
  - apply (proj2 (create_payload_email_required_only
                    (UserCreate.mk_raw (Some "vasya2") None
                                       (Some "secret")))).
    reflexivity.
Defined.

(* ================================================================= *)
(** ** Listing users *)

Lemma filter_all {A : Type} (l : list A) : filter (fun _ => true) l = l.
Proof. induction l as [|x r IH]; simpl; [reflexivity | now rewrite IH]. Qed.

Lemma In_window {A : Type} (x : A) (n m : nat) (l : list A) :
  In x (firstn n (skipn m l)) -> In x l.
Proof.
  intros H.
  rewrite <- (firstn_skipn m l). apply in_or_app. right.
  rewrite <- (firstn_skipn n (skipn m l)). apply in_or_app. now left.
Qed.

Lemma get_users_eq (st : State) (limit skip : Z) (active_only : bool)
      (username_contains : option string) :
  0 <= limit -> 0 <= skip ->
  get_users st limit skip active_only username_contains =
  users_listing (Py.values (fake_users_db st)) limit skip active_only
                username_contains.
Proof.
  intros Hl Hs. unfold get_users, users_listing.
  rewrite slice_window by assumption.
  do 2 f_equal.
  assert (Hact :
    (if active_only
     then filter (fun u => User.is_active u) (Py.values (fake_users_db st))
     else Py.values (fake_users_db st)) =
    filter (fun u => if active_only then User.is_active u else true)
           (Py.values (fake_users_db st))).
  { destruct active_only; [reflexivity | now rewrite filter_all]. }
  rewrite Hact.
  destruct username_contains as [[|c s]|]; simpl.
  - symmetry. rewrite (filter_ext _ (fun _ => true)); [apply filter_all|].
    intros u. apply str_in_empty.
  - reflexivity.
  - now rewrite filter_all.
Qed.

(** C4.  With [limit] in 1..100 and [skip >= 0], user listing is the
    stored users in store order, filtered by [is_active] when
    [active_only] is set, then by case-insensitive occurrence of
    [username_contains] in [username] when that is supplied, then cut to
    the window that drops [skip] elements and takes at most [limit]: every
    user returned passes both filters and at most [limit] are returned.  A
    store of 12 users listed with [limit = 5], [skip = 10] and no filter
    gives exactly 2 users. *)
Theorem get_users_filters_then_window (st : State) :
  (forall limit skip active_only username_contains,
      1 <= limit <= 100 -> 0 <= skip ->
      get_users st limit skip active_only username_contains =
      users_listing (Py.values (fake_users_db st)) limit skip active_only
                    username_contains /\
      Z.of_nat (List.length
                  (get_users st limit skip active_only username_contains))
      <= limit /\
      forall u,
        In u (get_users st limit skip active_only username_contains) ->
        In u (Py.values (fake_users_db st)) /\
        (active_only = true -> User.is_active u = true) /\
        (forall s, username_contains = Some s ->
                   occurs_ci s (User.username u))) /\
  (List.length (fake_users_db st) = 12%nat ->
   List.length (get_users st 5 10 false None) = 2%nat).
Proof.
  split.
  - intros limit skip active_only username_contains Hl Hs.
    rewrite get_users_eq by lia.
    split; [reflexivity|]. split.
    + unfold users_listing. rewrite length_firstn. lia.
    + intros u Hu. unfold users_listing in Hu.
      apply In_window in Hu.
      apply filter_In in Hu as [Hu Hname].
      apply filter_In in Hu as [Hu Hact].
      split; [exact Hu|]. split.
      * intros ->. exact Hact.
      * intros s ->. now apply str_in_occurs_ci.
  - intros H12. rewrite get_users_eq by lia.
    unfold users_listing. rewrite !filter_all.
    rewrite length_firstn, length_skipn.
    unfold Py.values. rewrite length_map, H12. reflexivity.
Qed.

Lemma get_users_filters_then_window_witness :
  get_users (seed 0 0) 1 0 true (Some "AT") =
  [User.mk 2 "katya" "katya@example.com" true 0] /\
  List.length (get_users twelve_users 5 10 false None) = 2%nat.
Proof.
  split.
  - destruct (get_users_filters_then_window (seed 0 0)) as [H _].
    destruct (H 1 0 true (Some "AT")) as [-> _]; [lia | lia |].
    reflexivity.
  - apply (proj2 (get_users_filters_then_window twelve_users)).
    reflexivity.
Defined.

(* ================================================================= *)
(** ** Listing messages *)

Lemma get_messages_eq (st : State) (user_id : option Z) (limit : Z)
      (sort_by_date : string) :
  (forall i, user_id = Some i -> 1 <= i) ->
  get_messages st user_id limit sort_by_date =
  (Py.slice (Py.sorted_by Message.created_at
                          (sort_by_date =? "desc")%string
                          (messages_of user_id (fake_messages_db st)))
            None (Some limit),
   st).
Proof.
  intros Hid. destruct st as [db msgs uc mc].
  unfold get_messages, messages_of. cbn [fake_messages_db fake_users_db
    user_id_counter message_id_counter].
  destruct user_id as [i|].
  - specialize (Hid i eq_refl).
    unfold Py.truthy_int.
    destruct (i =? 0) eqn:E; [apply Z.eqb_eq in E; lia|].
    cbn. destruct (sort_by_date =? "desc")%string; reflexivity.
  - cbn. destruct (sort_by_date =? "desc")%string; reflexivity.
Qed.

(** C5.  Message listing with [limit] in 1..100 and a [user_id] filter
    that is absent or at least 1 (a filter below 1 is rejected by the
    endpoint) returns the first [limit] elements of a
    sequence [sorted] that holds exactly the messages whose [user_id]
    equals the filter (all messages without a filter), ordered by
    [created_at], descending for ["desc"] and ascending for ["asc"], with
    messages of equal [created_at] in their stored order; the state,
    [fake_messages_db] included, is the same after the call.  An omitted
    [limit] is 20 and an omitted [sort_by_date] is ["desc"]. *)
Theorem get_messages_filter_sort_limit (st : State) :
  (forall user_id limit sort_by_date,
      1 <= limit <= 100 ->
      (forall i, user_id = Some i -> 1 <= i) ->
      exists sorted,
        get_messages st user_id limit sort_by_date =
        (firstn (Z.to_nat limit) sorted, st) /\
        Permutation sorted (messages_of user_id (fake_messages_db st)) /\
        (forall t,
            filter (fun m => Message.created_at m =? t) sorted =
            filter (fun m => Message.created_at m =? t)
                   (messages_of user_id (fake_messages_db st))) /\
        (sort_by_date = "desc" ->
         StronglySorted (descending Message.created_at) sorted) /\
        (sort_by_date = "asc" ->
         StronglySorted (ascending Message.created_at) sorted)) /\
  (forall now i limit sort_by_date,
      i < 1 ->
      exists es,
        serve now st (GET_messages (Some i) limit sort_by_date) =
        (error_response (RequestValidationError es), st) /\
        In ("user_id", ge 1) es) /\
  (forall now user_id,
      serve now st (GET_messages user_id None None) =
      serve now st (GET_messages user_id (Some 20) (Some "desc"))).
Proof.
  split; [|split; [|reflexivity]]; cycle 1.
  { intros now i limit sort_by_date Hi.
    exists (request_errors (GET_messages (Some i) limit sort_by_date)).
    assert (Hin : In ("user_id", ge 1)
                     (request_errors
                        (GET_messages (Some i) limit sort_by_date))).
    { cbn [request_errors]. apply in_or_app. left.
      unfold check_user_id, check_ge.
      destruct (i <? 1) eqn:E; [now left|].
      apply Z.ltb_ge in E. lia. }
    split; [|exact Hin].
    unfold serve.
    destruct (request_errors _) as [|e es]; [contradiction | reflexivity]. }
  intros user_id limit sort_by_date Hl Hid.
  exists (Py.sorted_by Message.created_at (sort_by_date =? "desc")%string
            (messages_of user_id (fake_messages_db st))).
  rewrite get_messages_eq by assumption.
  rewrite slice_prefix by lia.
  split; [reflexivity|].
  split; [apply sorted_by_perm|].
  split; [intros t; apply sorted_by_stable|].
  split; intros ->.
  - apply (sorted_by_order Message.created_at true).
  - apply (sorted_by_order Message.created_at false).
Qed.

Lemma get_messages_filter_sort_limit_witness :
  (exists sorted,
      get_messages three_messages (Some 1) 1 "desc" =
      (firstn 1 sorted, three_messages) /\
      Permutation sorted
        (messages_of (Some 1) (fake_messages_db three_messages)) /\
      StronglySorted (descending Message.created_at) sorted) /\
  (exists es,
      serve 0 three_messages (GET_messages (Some 0) None None) =
      (error_response (RequestValidationError es), three_messages) /\
      In ("user_id", ge 1) es).
Proof.
  destruct (get_messages_filter_sort_limit three_messages) as (H & H0 & _).
  split.
  - destruct (H (Some 1) 1 "desc")
      as (sorted & Heq & Hperm & _ & Hdesc & _).
    + lia.
    + intros i [= <-]. lia.
    + exists sorted. split; [exact Heq|]. split; [exact Hperm|].
      now apply Hdesc.
  - apply H0. lia.
Defined.

(* ================================================================= *)
(** ** Search *)

(** The loop of [search_users] appends the matching users to [results]
    in iteration order. *)
Lemma search_loop (q : string) (include_inactive : bool)
      (users results : list User.t) :
  fold_left
    (fun results user =>
       if Py.str_in (Py.lower q) (Py.lower (User.username user)) ||
          Py.str_in (Py.lower q) (Py.lower (User.email user))
       then if include_inactive || User.is_active user
            then results ++ [user]
            else results
       else results)
    users results =
  results ++ filter (search_match q include_inactive) users.
Proof.
  revert results.
  induction users as [|u r IH]; intros results; simpl.
  - now rewrite app_nil_r.
  - rewrite IH. unfold search_match at 2.
    destruct (Py.str_in _ _ || Py.str_in _ _); simpl;
      [|reflexivity].
    destruct (include_inactive || User.is_active u); simpl;
      [|reflexivity].
    now rewrite <- app_assoc.
Qed.

Lemma search_users_eq (st : State) (q : string) (limit : Z)
      (include_inactive : bool) :
  0 <= limit ->
  search_users st q limit include_inactive =
  search_listing (Py.values (fake_users_db st)) q limit include_inactive.
Proof.
  intros Hl. unfold search_users, search_listing.
  rewrite search_loop, slice_prefix by assumption. reflexivity.
Qed.

Lemma search_match_spec (q : string) (include_inactive : bool) (u : User.t) :
  search_match q include_inactive u = true <->
  (occurs_ci q (User.username u) \/ occurs_ci q (User.email u)) /\
  (include_inactive = false -> User.is_active u = true).
Proof.
  unfold search_match.
  rewrite andb_true_iff, !orb_true_iff, !str_in_occurs_ci.
  destruct include_inactive; intuition congruence.
Qed.

(** In a store whose keys are below the user counter, a created user
    goes to the end of the iteration order. *)
Lemma create_user_appends (now : Z) (st st' : State) (user : UserCreate.t)
      (u : User.t) :
  (forall k, In k (Py.keys (fake_users_db st)) -> k < user_id_counter st) ->
  create_user now st user = (inr u, st') ->
  Py.values (fake_users_db st') = Py.values (fake_users_db st) ++ [u].
Proof.
  intros Hb. unfold create_user.
  destruct (existsb _ _); [discriminate|].
  intros [= <- <-]. cbn [fake_users_db].
  rewrite setitem_fresh.
  - unfold Py.values. now rewrite map_app.
  - intros Hin. apply Hb in Hin. lia.
Qed.

(** C6.  With [limit] in 1..50, search returns the users whose [username]
    or [email] contains [q] when case is ignored, without the inactive
    ones unless [include_inactive] is set, in the iteration order of the
    store and cut to the first [limit]; a query shorter than 2 characters
    is rejected by the endpoint; an omitted [limit] is 10 and an omitted
    [include_inactive] is false; a user created in a store whose keys are
    below the counter is iterated last.  Over the seed store, ["vasya"]
    without inactive users finds exactly the seed user [vasya]. *)
Theorem search_users_matches_in_store_order (st : State) :
  (forall q limit include_inactive,
      1 <= limit <= 50 ->
      search_users st q limit include_inactive =
      firstn (Z.to_nat limit)
             (filter (search_match q include_inactive)
                     (Py.values (fake_users_db st))) /\
      forall u,
        search_match q include_inactive u = true <->
        (occurs_ci q (User.username u) \/ occurs_ci q (User.email u)) /\
        (include_inactive = false -> User.is_active u = true)) /\
  (forall now q limit include_inactive,
      Py.len q < 2 ->
      exists es,
        serve now st (GET_search (Some q) limit include_inactive) =
        (error_response (RequestValidationError es), st) /\
        In ("q", min_length 2) es) /\
  (forall now q,
      serve now st (GET_search q None None) =
      serve now st (GET_search q (Some 10) (Some false))) /\
  (forall now user u st',
      (forall k, In k (Py.keys (fake_users_db st)) ->
                 k < user_id_counter st) ->
      create_user now st user = (inr u, st') ->
      Py.values (fake_users_db st') = Py.values (fake_users_db st) ++ [u]) /\
  (forall t1 t2,
      search_users (seed t1 t2) "vasya" 10 false =
      [User.mk 1 "vasya" "vasya@example.com" true t1]).
Proof.
  split; [|split; [|split; [|split]]].
  - intros q limit include_inactive Hl.
    rewrite search_users_eq by lia.
    split; [reflexivity | intros u; apply search_match_spec].
  - intros now q limit include_inactive Hq.
    exists (request_errors (GET_search (Some q) limit include_inactive)).
    assert (Hin : In ("q", min_length 2)
                     (request_errors
                        (GET_search (Some q) limit include_inactive))).
    { cbn [request_errors check_str]. apply in_or_app. left.
      unfold check_length.
      destruct (Py.len q <? 2) eqn:E; [now left|].
      apply Z.ltb_ge in E. lia. }
    split; [|exact Hin].
    unfold serve.
    destruct (request_errors _) as [|e es]; [contradiction | reflexivity].
  - reflexivity.
  - intros now user u st'. apply create_user_appends.
  - reflexivity.
Qed.

Lemma search_users_matches_in_store_order_witness :
  search_users seed_vasya_inactive "EXAMPLE" 1 true =
  [User.mk 1 "vasya" "vasya@example.com" false 0] /\
  (exists es,
      serve 0 (seed 0 0) (GET_search (Some "v") None None) =
      (error_response (RequestValidationError es), seed 0 0) /\
      In ("q", min_length 2) es) /\
  Py.values (fake_users_db
               (snd (create_user 7 (seed 0 0)
                       (UserCreate.mk "masha" "masha@example.com"
                                      "secret")))) =
  Py.values (fake_users_db (seed 0 0)) ++
  [User.mk 3 "masha" "masha@example.com" true 7].
Proof.
  split; [|split].
  - destruct (search_users_matches_in_store_order seed_vasya_inactive)
      as [H _].
    destruct (H "EXAMPLE" 1 true) as [-> _]; [lia|]. reflexivity.
  - destruct (search_users_matches_in_store_order (seed 0 0))
      as (_ & H & _).
    apply H. vm_compute. reflexivity.
  - destruct (search_users_matches_in_store_order (seed 0 0))
      as (_ & _ & _ & H & _).
    apply (H 7 (UserCreate.mk "masha" "masha@example.com" "secret")).
    + simpl. intros k [<-|[<-|[]]]; lia.
    + reflexivity.
Defined.

(* ================================================================= *)
(** ** Updating users *)

Section Modify.

Context {V : Type}.
Implicit Types (d : Py.dict V) (k : Z) (f g : V -> V).

Lemma modify_ext k f g d :
  (forall v, f v = g v) -> Py.modify k f d = Py.modify k g d.
Proof.
  intros H. induction d as [|[k' v'] r IH]; simpl; [reflexivity|].
  destruct (k =? k'); [now rewrite H | now rewrite IH].
Qed.

Lemma modify_id k f d : (forall v, f v = v) -> Py.modify k f d = d.
Proof.
  intros H. induction d as [|[k' v'] r IH]; simpl; [reflexivity|].
  destruct (k =? k'); [now rewrite H | now rewrite IH].
Qed.

(** Two mutations of the same entry, one after the other. *)
Lemma modify_modify k f g d :
  Py.modify k f (Py.modify k g d) = Py.modify k (fun v => f (g v)) d.
Proof.
  induction d as [|[k' v'] r IH]; simpl; [reflexivity|].
  destruct (k =? k') eqn:E; simpl; rewrite E; [reflexivity|].
  now rewrite IH.
Qed.

End Modify.

(** Replaces the function of the mutation in the goal by [patched]. *)
Ltac same_mutation :=
  match goal with
  | |- context [Py.modify ?k ?f ?d] =>
      rewrite (modify_ext k f (patched _) d) by (intros []; reflexivity)
  end.

Lemma getitem_modify (user_id : Z) (f : User.t -> User.t)
      (db : Py.dict User.t) (u : User.t) :
  Py.get user_id db = Some u ->
  getitem user_id (Py.modify user_id f db) = inr (f u).
Proof.
  intros H. unfold getitem. now rewrite get_modify_same, H.
Qed.

Lemma contains_of_get (user_id : Z) (db : Py.dict User.t) (u : User.t) :
  Py.get user_id db = Some u -> Py.contains user_id db = true.
Proof. intros H. apply contains_get. now exists u. Qed.

Lemma update_user_partial_eq (st : State) (user_id : Z)
      (user_update : UserUpdate.t) (u : User.t) :
  Py.get user_id (fake_users_db st) = Some u ->
  update_user_partial st user_id user_update =
  (inr (patched user_update u),
   with_users st (Py.modify user_id (patched user_update)
                            (fake_users_db st))).
Proof.
  intros H. unfold update_user_partial.
  rewrite (contains_of_get _ _ _ H). cbn [negb].
  destruct user_update as [[x|] [y|] [z|]];
    cbn [UserUpdate.username UserUpdate.email UserUpdate.is_active];
    cbv zeta; rewrite ?modify_modify.
  all: try (same_mutation; now rewrite (getitem_modify _ _ _ _ H)).
  rewrite (modify_id user_id (patched _)) by (intros []; reflexivity).
  unfold getitem. rewrite H. now destruct u.
Qed.

Lemma update_user_full_eq (st : State) (user_id : Z)
      (user_update : UserCreate.t) (u : User.t) :
  Py.get user_id (fake_users_db st) = Some u ->
  update_user_full st user_id user_update =
  (inr (replaced user_update u),
   with_users st (Py.modify user_id (replaced user_update)
                            (fake_users_db st))).
Proof.
  intros H. unfold update_user_full.
  rewrite (contains_of_get _ _ _ H). cbn [negb]. cbv zeta.
  rewrite modify_modify.
  rewrite (modify_ext user_id _ (replaced user_update))
    by (intros []; reflexivity).
  now rewrite (getitem_modify _ _ _ _ H).
Qed.

Lemma update_absent (st : State) (user_id : Z) :
  Py.get user_id (fake_users_db st) = None ->
  (forall user_update,
      update_user_full st user_id user_update =
      (inl (not_found user_id), st)) /\
  (forall user_update,
      update_user_partial st user_id user_update =
      (inl (not_found user_id), st)).
Proof.
  intros H. apply contains_false_get in H.
  unfold update_user_full, update_user_partial.
  rewrite H. split; reflexivity.
Qed.

(** The part of the state an update of [user_id] leaves alone: the other
    entries, the order and set of keys, the messages and both counters. *)
Lemma modify_frame (st : State) (user_id : Z) (f : User.t -> User.t) :
  let st' := with_users st (Py.modify user_id f (fake_users_db st)) in
  (forall k, k <> user_id ->
             Py.get k (fake_users_db st') = Py.get k (fake_users_db st)) /\
  Py.keys (fake_users_db st') = Py.keys (fake_users_db st) /\
  fake_messages_db st' = fake_messages_db st /\
  user_id_counter st' = user_id_counter st /\
  message_id_counter st' = message_id_counter st.
Proof.
  cbn. split; [|split; [apply keys_modify | auto]].
  intros k Hk. now apply get_modify_other.
Qed.

(** C7.  For a user id present in the store, partial update returns and
    stores a user in which every field the payload carries has the
    payload's value and every omitted field, as well as [id] and
    [created_at], has its old value; the other users, the key order, the
    messages and the counters are untouched.  With the payload
    [{is_active: false}] the username and email stay and [is_active]
    becomes false. *)
Theorem update_user_partial_only_present_fields
        (st : State) (user_id : Z) (user_update : UserUpdate.t)
        (u : User.t) :
  Py.get user_id (fake_users_db st) = Some u ->
  exists u' st',
    update_user_partial st user_id user_update = (inr u', st') /\
    Py.get user_id (fake_users_db st') = Some u' /\
    User.id u' = User.id u /\
    User.created_at u' = User.created_at u /\
    (UserUpdate.username user_update = None ->
     User.username u' = User.username u) /\
    (UserUpdate.email user_update = None -> User.email u' = User.email u) /\
    (UserUpdate.is_active user_update = None ->
     User.is_active u' = User.is_active u) /\
    (forall x, UserUpdate.username user_update = Some x ->
               User.username u' = x) /\
    (forall x, UserUpdate.email user_update = Some x -> User.email u' = x) /\
    (forall x, UserUpdate.is_active user_update = Some x ->
               User.is_active u' = x) /\
    (user_update = UserUpdate.mk None None (Some false) ->
     u' = User.mk (User.id u) (User.username u) (User.email u) false
                  (User.created_at u)) /\
    (forall k, k <> user_id ->
               Py.get k (fake_users_db st') = Py.get k (fake_users_db st)) /\
    Py.keys (fake_users_db st') = Py.keys (fake_users_db st) /\
    fake_messages_db st' = fake_messages_db st /\
    user_id_counter st' = user_id_counter st /\
    message_id_counter st' = message_id_counter st.
Proof.
  intros H.
  exists (patched user_update u),
         (with_users st (Py.modify user_id (patched user_update)
                                   (fake_users_db st))).
  split; [now apply update_user_partial_eq|].
  split; [cbn; now rewrite get_modify_same, H|].
  repeat (split; [first [ reflexivity
                        | now intros ->
                        | intros E; cbn; now rewrite E
                        | intros x E; cbn; now rewrite E ] |]).
  apply modify_frame.
Qed.

Lemma update_user_partial_only_present_fields_witness :
  exists u' st',
    update_user_partial (seed 0 0) 1 (UserUpdate.mk None None (Some false)) =
    (inr u', st') /\
    u' = User.mk 1 "vasya" "vasya@example.com" false 0 /\
    Py.get 2 (fake_users_db st') = Py.get 2 (fake_users_db (seed 0 0)).
Proof.
  destruct (update_user_partial_only_present_fields
              (seed 0 0) 1 (UserUpdate.mk None None (Some false))
              (User.mk 1 "vasya" "vasya@example.com" true 0) eq_refl)
    as (u' & st' & Heq & _ & _ & _ & _ & _ & _ & _ & _ & _ & Hu & Hk & _).
  exists u', st'.
  split; [exact Heq|].
  split; [now apply Hu | apply Hk; lia].
Defined.

(** C8.  For a user id present in the store, full update returns and
    stores the user with [username] and [email] taken from the payload and
    [id], [created_at] and [is_active] as before, and touches nothing else
    in the state; two payloads that differ only in the password have the
    same outcome, so the password is not stored; for an absent id the
    outcome is the not-found error and the state is as before. *)
Theorem update_user_full_replaces_username_email
        (st : State) (user_id : Z) :
  (forall u user_update,
      Py.get user_id (fake_users_db st) = Some u ->
      exists u' st',
        update_user_full st user_id user_update = (inr u', st') /\
        Py.get user_id (fake_users_db st') = Some u' /\
        User.username u' = UserCreate.username user_update /\
        User.email u' = UserCreate.email user_update /\
        User.id u' = User.id u /\
        User.created_at u' = User.created_at u /\
        User.is_active u' = User.is_active u /\
        (forall k, k <> user_id ->
                   Py.get k (fake_users_db st') =
                   Py.get k (fake_users_db st)) /\
        Py.keys (fake_users_db st') = Py.keys (fake_users_db st) /\
        fake_messages_db st' = fake_messages_db st /\
        user_id_counter st' = user_id_counter st /\
        message_id_counter st' = message_id_counter st) /\
  (forall username email password1 password2,
      update_user_full st user_id
                       (UserCreate.mk username email password1) =
      update_user_full st user_id
                       (UserCreate.mk username email password2)) /\
  (Py.get user_id (fake_users_db st) = None ->
   forall user_update,
     update_user_full st user_id user_update =
     (inl (not_found user_id), st)).
Proof.
  split; [|split].
  - intros u user_update H.
    exists (replaced user_update u),
           (with_users st (Py.modify user_id (replaced user_update)
                                     (fake_users_db st))).
    split; [now apply update_user_full_eq|].
    split; [cbn; now rewrite get_modify_same, H|].
    repeat (split; [reflexivity|]).
    apply modify_frame.
  - reflexivity.
  - intros H. now apply update_absent.
Qed.

Lemma update_user_full_replaces_username_email_witness :
  (exists st',
      update_user_full seed_vasya_inactive 1
        (UserCreate.mk "vasily" "vasily@example.com" "secret") =
      (inr (User.mk 1 "vasily" "vasily@example.com" false 0), st') /\
      Py.get 2 (fake_users_db st') =
      Py.get 2 (fake_users_db seed_vasya_inactive)) /\
  update_user_full (seed 0 0) 3
    (UserCreate.mk "vasily" "vasily@example.com" "secret") =
  (inl (not_found 3), seed 0 0).
Proof.
  split.
  - destruct (proj1 (update_user_full_replaces_username_email
                       seed_vasya_inactive 1)
                (User.mk 1 "vasya" "vasya@example.com" false 0)
                (UserCreate.mk "vasily" "vasily@example.com" "secret")
                eq_refl)
      as (u' & st' & Heq & _ & Hn & He & Hi & Hc & Ha & Hk & _).
    exists st'. split; [|apply Hk; lia].
    rewrite Heq. f_equal. f_equal.
    destruct u'; cbn in *; congruence.
  - apply (proj2 (proj2 (update_user_full_replaces_username_email
                           (seed 0 0) 3))).
    reflexivity.
Defined.

Lemma UserCreate_validate_accepts (r : UserCreate.raw) :
  UserCreate.errors r = [] ->
  exists u e p,
    r = UserCreate.mk_raw (Some u) (Some e) (Some p) /\
    UserCreate.validate r = inr (UserCreate.mk u e p).
Proof.
  intros H. unfold UserCreate.validate. rewrite H.
  destruct r as [[u|] [e|] [p|]]; unfold UserCreate.errors in H;
    cbn [UserCreate.raw_username UserCreate.raw_email
         UserCreate.raw_password check_str] in H.
  - exists u, e, p. split; reflexivity.
  - apply app_eq_nil in H as [_ H]. discriminate.
  - apply app_eq_nil in H as [_ H]. discriminate.
  - apply app_eq_nil in H as [_ H]. discriminate.
  - discriminate.
  - discriminate.
  - discriminate.
  - discriminate.
Qed.

Lemma serve_PUT_user (now : Z) (st : State) (user_id : Z)
      (body : UserCreate.raw) :
  request_errors (PUT_user user_id body) = [] ->
  exists u e p,
    body = UserCreate.mk_raw (Some u) (Some e) (Some p) /\
    serve now st (PUT_user user_id body) =
    (respond user_response
             (fst (update_user_full st user_id (UserCreate.mk u e p))),
     snd (update_user_full st user_id (UserCreate.mk u e p))).
Proof.
  intros H. unfold serve. rewrite H.
  cbn [request_errors] in H. apply app_eq_nil in H as [_ H].
  destruct (UserCreate_validate_accepts body H) as (u & e & p & -> & Hv).
  exists u, e, p. split; [reflexivity|].
  rewrite Hv. now destruct (update_user_full _ _ _).
Qed.

Lemma serve_PATCH_user (now : Z) (st : State) (user_id : Z)
      (body : UserUpdate.t) :
  request_errors (PATCH_user user_id body) = [] ->
  serve now st (PATCH_user user_id body) =
  (respond user_response (fst (update_user_partial st user_id body)),
   snd (update_user_partial st user_id body)).
Proof.
  intros H. unfold serve. rewrite H.
  now destruct (update_user_partial _ _ _).
Qed.

(** C10.  For a user id present in the store, full update and partial
    update return the updated user for every payload object, so never a
    conflict error: no email check takes place, and the email of the
    payload, whatever it is, is the email of the returned user.  From the
    seed store, a full update of user 2 and a partial update of user 2
    with the email of user 1 are both answered with the updated user and
    each leaves two stored users with the email ["vasya@example.com"]. *)
Theorem updates_skip_email_uniqueness
        (st : State) (user_id : Z) (u : User.t) :
  Py.get user_id (fake_users_db st) = Some u ->
  (forall user_update,
      exists u',
        fst (update_user_full st user_id user_update) = inr u' /\
        User.email u' = UserCreate.email user_update) /\
  (forall user_update,
      exists u',
        fst (update_user_partial st user_id user_update) = inr u' /\
        forall e, UserUpdate.email user_update = Some e ->
                  User.email u' = e) /\
  (forall now t1 t2,
      let put :=
        serve now (seed t1 t2)
              (PUT_user 2 (UserCreate.mk_raw (Some "katya")
                             (Some "vasya@example.com") (Some "secret"))) in
      let patch :=
        serve now (seed t1 t2)
              (PATCH_user 2 (UserUpdate.mk None (Some "vasya@example.com")
                                           None)) in
      fst put = user_response
                  (User.mk 2 "katya" "vasya@example.com" true t2) /\
      fst patch = user_response
                    (User.mk 2 "katya" "vasya@example.com" true t2) /\
      map User.email (Py.values (fake_users_db (snd put))) =
      ["vasya@example.com"; "vasya@example.com"] /\
      map User.email (Py.values (fake_users_db (snd patch))) =
      ["vasya@example.com"; "vasya@example.com"]).
Proof.
  intros H. split; [|split].
  - intros user_update.
    rewrite (update_user_full_eq _ _ _ _ H).
    exists (replaced user_update u). split; reflexivity.
  - intros user_update.
    rewrite (update_user_partial_eq _ _ _ _ H).
    exists (patched user_update u). split; [reflexivity|].
    intros e He. cbn. now rewrite He.
  - intros now t1 t2. repeat split.
Qed.

Lemma updates_skip_email_uniqueness_witness :
  (exists u',
      fst (update_user_full (seed 0 0) 2
             (UserCreate.mk "katya" "vasya@example.com" "secret")) =
      inr u' /\
      User.email u' = "vasya@example.com") /\
  (exists u',
      fst (update_user_partial (seed 0 0) 2
             (UserUpdate.mk None (Some "vasya@example.com") None)) =
      inr u' /\
      User.email u' = "vasya@example.com").
Proof.
  destruct (updates_skip_email_uniqueness (seed 0 0) 2
              (User.mk 2 "katya" "katya@example.com" true 0) eq_refl)
    as (Hput & Hpatch & _).
  split.
  - apply (Hput (UserCreate.mk "katya" "vasya@example.com" "secret")).
  - destruct (Hpatch (UserUpdate.mk None (Some "vasya@example.com") None))
      as (u' & Hu & He).
    exists u'. split; [exact Hu | now apply He].
Defined.

(* ================================================================= *)
(** ** Identifiers *)

Lemma NoDup_snoc {A : Type} (l : list A) (a : A) :
  NoDup l -> ~ In a l -> NoDup (l ++ [a]).
Proof.
  induction 1 as [|x r Hx Hr IH]; intros Ha; simpl.
  - constructor; [auto | constructor].
  - constructor.
    + rewrite in_app_iff. intros [H|[H|[]]]; [auto|].
      subst. apply Ha. now left.
    + apply IH. intros H. apply Ha. now right.
Qed.

(** In a store where every entry is filed under its own id, the ids of
    the stored users are the keys. *)
Lemma user_ids_keys (st : State) :
  (forall k u, In (k, u) (fake_users_db st) -> User.id u = k) ->
  user_ids st = Py.keys (fake_users_db st).
Proof.
  unfold user_ids, Py.values, Py.keys. rewrite map_map.
  intros H. apply map_ext_in. intros [k u] Hin. now apply H.
Qed.

Lemma store_ok_seed (t1 t2 : Z) : store_ok (seed t1 t2).
Proof.
  constructor; cbn.
  - unfold Py.wf. cbn. repeat constructor; cbn; intuition lia.
  - intros k u [[= <- <-]|[[= <- <-]|[]]]; reflexivity.
  - intros k [<-|[<-|[]]]; lia.
  - constructor.
  - intros i [].
Qed.

Lemma store_ok_modify (st : State) (user_id : Z) (f : User.t -> User.t) :
  (forall u, User.id (f u) = User.id u) ->
  store_ok st ->
  store_ok (with_users st (Py.modify user_id f (fake_users_db st))).
Proof.
  intros Hf [Hk Hs Hb Hm Hmb].
  constructor; try assumption;
    cbn [with_users fake_users_db user_id_counter].
  - unfold Py.wf. now rewrite keys_modify.
  - intros k u Hin.
    apply In_modify in Hin as (v & Hv & [->|[-> ->]]).
    + now apply Hs.
    + rewrite Hf. now apply Hs.
  - intros k. rewrite keys_modify. apply Hb.
Qed.

Lemma store_ok_delete (st : State) (user_id : Z) :
  store_ok st ->
  store_ok (with_users st (Py.delitem user_id (fake_users_db st))).
Proof.
  intros [Hk Hs Hb Hm Hmb].
  constructor; try assumption;
    cbn [with_users fake_users_db user_id_counter].
  - now apply wf_delitem.
  - intros k u Hin. apply In_delitem in Hin. now apply Hs.
  - intros k Hin. apply In_keys_delitem in Hin. now apply Hb.
Qed.

Lemma store_ok_create_user (now : Z) (st : State) (user : UserCreate.t) :
  store_ok st -> store_ok (snd (create_user now st user)).
Proof.
  intros Hok. unfold create_user.
  destruct (existsb _ _); [exact Hok|].
  destruct Hok as [Hk Hs Hb Hm Hmb].
  assert (Hfresh : ~ In (user_id_counter st) (Py.keys (fake_users_db st))).
  { intros Hin. apply Hb in Hin. lia. }
  constructor; cbn; try assumption; rewrite setitem_fresh by assumption.
  - unfold Py.wf, Py.keys. rewrite map_app. now apply NoDup_snoc.
  - intros k u Hin. apply in_app_or in Hin as [Hin|[[= <- <-]|[]]].
    + now apply Hs.
    + reflexivity.
  - intros k. unfold Py.keys. rewrite map_app, in_app_iff.
    intros [Hin|[<-|[]]]; [apply Hb in Hin|]; cbn; lia.
Qed.

Lemma store_ok_create_message (now : Z) (st : State) (user_id : Z)
      (message : MessageCreate.t) :
  store_ok st ->
  store_ok (snd (create_message_for_user now st user_id message)).
Proof.
  intros Hok. unfold create_message_for_user.
  destruct (negb _); [exact Hok|].
  destruct Hok as [Hk Hs Hb Hm Hmb].
  constructor; cbn; try assumption; unfold message_ids in *; cbn;
    rewrite map_app.
  - apply NoDup_snoc; [assumption|].
    intros Hin. apply Hmb in Hin. cbn in Hin. lia.
  - intros i. rewrite in_app_iff.
    intros [Hin|[<-|[]]]; [apply Hmb in Hin|]; cbn; lia.
Qed.

Lemma get_messages_state (st : State) (user_id : option Z) (limit : Z)
      (sort_by_date : string) :
  snd (get_messages st user_id limit sort_by_date) = st.
Proof.
  destruct st as [db msgs uc mc]. unfold get_messages.
  cbn [fake_messages_db fake_users_db user_id_counter message_id_counter].
  destruct (Py.truthy_int user_id), (sort_by_date =? "desc")%string;
    reflexivity.
Qed.

Lemma update_user_full_state (st : State) (user_id : Z)
      (user_update : UserCreate.t) :
  snd (update_user_full st user_id user_update) = st \/
  snd (update_user_full st user_id user_update) =
  with_users st (Py.modify user_id (replaced user_update)
                           (fake_users_db st)).
Proof.
  destruct (Py.get user_id (fake_users_db st)) as [u|] eqn:E.
  - right. now rewrite (update_user_full_eq _ _ _ _ E).
  - left. now rewrite (proj1 (update_absent _ _ E)).
Qed.

Lemma update_user_partial_state (st : State) (user_id : Z)
      (user_update : UserUpdate.t) :
  snd (update_user_partial st user_id user_update) = st \/
  snd (update_user_partial st user_id user_update) =
  with_users st (Py.modify user_id (patched user_update)
                           (fake_users_db st)).
Proof.
  destruct (Py.get user_id (fake_users_db st)) as [u|] eqn:E.
  - right. now rewrite (update_user_partial_eq _ _ _ _ E).
  - left. now rewrite (proj2 (update_absent _ _ E)).
Qed.

Lemma serve_effect (now : Z) (st : State) (r : Request) :
  effect st (snd (serve now st r)).
Proof.
  unfold serve.
  destruct (request_errors r); [|apply effect_none].
  destruct r; try apply effect_none.
  - unfold delete_user.
    destruct (negb _); [apply effect_none | apply effect_delete].
  - destruct (get_messages _ _ _ _) as [res st'] eqn:E.
    cbn. replace st' with (snd (get_messages st user_id (default 20 limit)
                                  (default "desc" sort_by_date)))
      by now rewrite E.
    rewrite get_messages_state. apply effect_none.
  - destruct (UserCreate.validate body) as [es|user]; [apply effect_none|].
    destruct (create_user now st user) as [res st'] eqn:E.
    cbn. replace st' with (snd (create_user now st user)) by now rewrite E.
    apply effect_create_user.
  - destruct (MessageCreate.validate body) as [es|message];
      [apply effect_none|].
    destruct (create_message_for_user now st user_id message)
      as [res st'] eqn:E.
    cbn. replace st' with
      (snd (create_message_for_user now st user_id message))
      by now rewrite E.
    apply effect_create_message.
  - destruct (UserCreate.validate body) as [es|user_update];
      [apply effect_none|].
    destruct (update_user_full st user_id user_update) as [res st'] eqn:E.
    cbn. destruct (update_user_full_state st user_id user_update) as [H|H];
      rewrite E in H; cbn in H; subst st';
      [apply effect_none | now apply effect_modify].
  - destruct (update_user_partial st user_id body) as [res st'] eqn:E.
    cbn. destruct (update_user_partial_state st user_id body) as [H|H];
      rewrite E in H; cbn in H; subst st';
      [apply effect_none | now apply effect_modify].
Qed.

Lemma effect_ok (st st' : State) : effect st st' -> store_ok st -> store_ok st'.
Proof.
  intros [| | | |]; auto using store_ok_create_user,
    store_ok_create_message, store_ok_delete, store_ok_modify.
Qed.

(** No request lowers a counter. *)
Lemma effect_counters (st st' : State) :
  effect st st' ->
  user_id_counter st <= user_id_counter st' /\
  message_id_counter st <= message_id_counter st'.
Proof.
  intros [|now user|now user_id message| |]; cbn; try lia.
  - unfold create_user. destruct (existsb _ _); cbn; lia.
  - unfold create_message_for_user. destruct (negb _); cbn; lia.
Qed.

Lemma reachable_ok (st : State) : reachable st -> store_ok st.
Proof.
  induction 1 as [t1 t2|st now r _ IH].
  - apply store_ok_seed.
  - eapply effect_ok; [apply serve_effect | exact IH].
Qed.

Lemma run_counters (st : State) (reqs : list (Z * Request)) :
  user_id_counter st <= user_id_counter (run st reqs) /\
  message_id_counter st <= message_id_counter (run st reqs).
Proof.
  revert st. induction reqs as [|[now r] rest IH]; intros st; cbn; [lia|].
  specialize (IH (snd (serve now st r))).
  pose proof (effect_counters _ _ (serve_effect now st r)). lia.
Qed.

Lemma run_reachable (st : State) (reqs : list (Z * Request)) :
  reachable st -> reachable (run st reqs).
Proof.
  revert st. induction reqs as [|[now r] rest IH]; intros st H; cbn; [exact H|].
  apply IH. now constructor.
Qed.

(** C9.  In every state reachable from the seed state by requests of any
    kind, deletions included, the ids of the stored users are pairwise
    distinct and so are the ids of the stored messages.  Along any further
    run neither counter decreases; a successful create-user there returns
    the current user counter as id and raises the counter by one, and that
    id is above every user id of the earlier state, hence none of them;
    the same holds for messages and the message counter. *)
Theorem ids_distinct_and_never_reused (st : State) :
  reachable st ->
  NoDup (user_ids st) /\ NoDup (message_ids st) /\
  (forall i, In i (user_ids st) -> i < user_id_counter st) /\
  (forall i, In i (message_ids st) -> i < message_id_counter st) /\
  forall reqs,
    user_id_counter st <= user_id_counter (run st reqs) /\
    message_id_counter st <= message_id_counter (run st reqs) /\
    (forall now user u st',
        create_user now (run st reqs) user = (inr u, st') ->
        User.id u = user_id_counter (run st reqs) /\
        user_id_counter st' = user_id_counter (run st reqs) + 1 /\
        (forall i, In i (user_ids st) -> i < User.id u) /\
        ~ In (User.id u) (user_ids st)) /\
    (forall now user_id message m st',
        create_message_for_user now (run st reqs) user_id message =
        (inr m, st') ->
        Message.id m = message_id_counter (run st reqs) /\
        message_id_counter st' = message_id_counter (run st reqs) + 1 /\
        (forall i, In i (message_ids st) -> i < Message.id m) /\
        ~ In (Message.id m) (message_ids st)).
Proof.
  intros Hr. destruct (reachable_ok st Hr) as [Hk Hs Hb Hm Hmb].
  rewrite (user_ids_keys st Hs).
  split; [exact Hk|]. split; [exact Hm|].
  split; [exact Hb|]. split; [exact Hmb|].
  intros reqs. destruct (run_counters st reqs) as [Hu Hc].
  split; [exact Hu|]. split; [exact Hc|]. split.
  - intros now user u st'. unfold create_user.
    destruct (existsb _ _); [discriminate|].
    intros [= <- <-]. cbn.
    split; [reflexivity|]. split; [reflexivity|].
    assert (Hlt : forall i, In i (Py.keys (fake_users_db st)) ->
                            i < user_id_counter (run st reqs)).
    { intros i Hi. apply Hb in Hi. lia. }
    split; [exact Hlt|].
    intros Hin. apply Hlt in Hin. lia.
  - intros now user_id message m st'. unfold create_message_for_user.
    destruct (negb _); [discriminate|].
    intros [= <- <-]. cbn.
    split; [reflexivity|]. split; [reflexivity|].
    assert (Hlt : forall i, In i (message_ids st) ->
                            i < message_id_counter (run st reqs)).
    { intros i Hi. apply Hmb in Hi. lia. }
    split; [exact Hlt|].
    intros Hin. apply Hlt in Hin. lia.
Qed.

Lemma ids_distinct_and_never_reused_witness :
  NoDup (user_ids (run (seed 0 0) [(1, DELETE_user 2)])) /\
  create_user 2
    (run (run (seed 0 0) [(1, DELETE_user 2)]) [(1, DELETE_user 1)])
    (UserCreate.mk "katya" "katya@example.com" "secret") =
  (inr (User.mk 3 "katya" "katya@example.com" true 2),
   mkState [(3, User.mk 3 "katya" "katya@example.com" true 2)] [] 4 1) /\
  ~ In 3 (user_ids (run (seed 0 0) [(1, DELETE_user 2)])).
Proof.
  destruct (ids_distinct_and_never_reused
              (run (seed 0 0) [(1, DELETE_user 2)])
              (reachable_serve (seed 0 0) 1 (DELETE_user 2)
                               (reachable_seed 0 0)))
    as (Hnd & _ & _ & _ & H).
  split; [exact Hnd|]. split; [reflexivity|].
  destruct (H [(1, DELETE_user 1)]) as (_ & _ & Hu & _).
  destruct (Hu 2 (UserCreate.mk "katya" "katya@example.com" "secret")
               (User.mk 3 "katya" "katya@example.com" true 2)
               (mkState [(3, User.mk 3 "katya" "katya@example.com" true 2)]
                        [] 4 1)
               eq_refl)
    as (_ & _ & _ & Hfresh).
  exact Hfresh.
Defined.

(* ================================================================= *)
(** ** Lookup, deletion and the dictionary *)

Section DictUpdates.

Context {V : Type}.
Implicit Types (d : Py.dict V) (k : Z) (v : V).

Lemma get_setitem_same k v d : Py.get k (Py.setitem k v d) = Some v.
Proof.
  induction d as [|[k' v'] r IH]; simpl.
  - now rewrite Z.eqb_refl.
  - destruct (k =? k') eqn:E; simpl; [now rewrite Z.eqb_refl|].
    now rewrite E.
Qed.

Lemma In_setitem k k' v v' d :
  In (k', v') (Py.setitem k v d) -> (k', v') = (k, v) \/ In (k', v') d.
Proof.
  induction d as [|[k0 v0] r IH]; simpl.
  - intros [H|[]]. now left.
  - destruct (k =? k0); simpl.
    + intros [H|H]; [now left | right; now right].
    + intros [H|H]; [right; now left|].
      destruct (IH H); [now left | right; now right].
Qed.

Lemma In_values_setitem k v d : In v (Py.values (Py.setitem k v d)).
Proof.
  unfold Py.values.
  induction d as [|[k' v'] r IH]; simpl; [now left|].
  destruct (k =? k'); simpl; [now left | now right].
Qed.

Lemma get_delitem_other k k' d :
  k' <> k -> Py.get k' (Py.delitem k d) = Py.get k' d.
Proof.
  intros Hne.
  induction d as [|[k0 v0] r IH]; simpl; [reflexivity|].
  destruct (k =? k0) eqn:E; simpl.
  - apply Z.eqb_eq in E. subst k0.
    destruct (k' =? k) eqn:E'; [apply Z.eqb_eq in E'; contradiction|].
    reflexivity.
  - destruct (k' =? k0); [reflexivity | exact IH].
Qed.

Lemma get_delitem_same k d : Py.wf d -> Py.get k (Py.delitem k d) = None.
Proof.
  intros Hwf. apply contains_false_get.
  destruct (Py.contains k (Py.delitem k d)) eqn:E; [|reflexivity].
  apply contains_keys in E. now apply delitem_gone in E.
Qed.

(** With keys held once, [del d[k]] keeps the other entries in their
    order. *)
Lemma delitem_filter k d :
  Py.wf d -> Py.delitem k d = filter (fun e => negb (fst e =? k)) d.
Proof.
  unfold Py.wf.
  induction d as [|[k0 v0] r IH]; simpl; [reflexivity|].
  intros Hnd. inversion Hnd as [|? ? Hk Hr]; subst.
  rewrite (Z.eqb_sym k0 k).
  destruct (k =? k0) eqn:E; simpl.
  - apply Z.eqb_eq in E. subst k0.
    symmetry. rewrite (filter_ext_in _ (fun _ => true)); [apply filter_all|].
    intros [k1 v1] Hin. simpl.
    destruct (k1 =? k) eqn:E1; [|reflexivity].
    apply Z.eqb_eq in E1. subst k1.
    exfalso. apply Hk. change k with (fst (k, v1)). now apply in_map.
  - now rewrite IH.
Qed.

End DictUpdates.

Lemma get_user_by_id_eq (st : State) (user_id : Z) :
  get_user_by_id st user_id =
  match Py.get user_id (fake_users_db st) with
  | Some u => inr u
  | None => inl (not_found user_id)
  end.
Proof.
  unfold get_user_by_id, getitem, Py.contains.
  now destruct (Py.get user_id (fake_users_db st)).
Qed.

(** X1.  [get_user_by_id] answers with the entry stored under the id, or
    with the 404 error that names the id when there is none; the lookup
    inside it never fails with a [KeyError].  After a successful
    [create_user] the id of the returned user resolves to that user. *)
Theorem get_user_by_id_after_create (st : State) :
  (forall user_id,
      (exists u, get_user_by_id st user_id = inr u /\
                 Py.get user_id (fake_users_db st) = Some u) \/
      (get_user_by_id st user_id = inl (not_found user_id) /\
       Py.get user_id (fake_users_db st) = None)) /\
  (forall now user u st',
      create_user now st user = (inr u, st') ->
      get_user_by_id st' (User.id u) = inr u).
Proof.
  split.
  - intros user_id. rewrite get_user_by_id_eq.
    destruct (Py.get user_id (fake_users_db st)) as [u|]; [left|right]; eauto.
  - intros now user u st'. unfold create_user.
    destruct (existsb _ _); [discriminate|].
    intros [= <- <-]. rewrite get_user_by_id_eq. cbn.
    now rewrite get_setitem_same.
Qed.

Lemma get_user_by_id_after_create_witness :
  get_user_by_id
    (snd (create_user 7 (seed 0 0)
            (UserCreate.mk "masha" "masha@example.com" "secret"))) 3 =
  inr (User.mk 3 "masha" "masha@example.com" true 7).
Proof.
  apply (proj2 (get_user_by_id_after_create (seed 0 0)) 7
           (UserCreate.mk "masha" "masha@example.com" "secret")
           (User.mk 3 "masha" "masha@example.com" true 7)).
  reflexivity.
Defined.

(** X2.  [delete_user] on an id that is not a key answers 404 and leaves
    the state as it was.  On a key of a well-formed store it answers with
    the id, removes that entry and nothing else (the other entries keep
    their values and their order, the messages and both counters stay),
    and from then on the id is gone: looking it up and deleting it again
    both answer 404. *)
Theorem delete_user_removes_one_entry (st : State) (user_id : Z) :
  (Py.contains user_id (fake_users_db st) = false ->
   delete_user st user_id = (inl (not_found user_id), st)) /\
  (Py.wf (fake_users_db st) ->
   Py.contains user_id (fake_users_db st) = true ->
   exists st',
     delete_user st user_id = (inr user_id, st') /\
     fake_users_db st' =
     filter (fun e => negb (fst e =? user_id)) (fake_users_db st) /\
     (forall k, k <> user_id ->
                Py.get k (fake_users_db st') = Py.get k (fake_users_db st)) /\
     fake_messages_db st' = fake_messages_db st /\
     user_id_counter st' = user_id_counter st /\
     message_id_counter st' = message_id_counter st /\
     get_user_by_id st' user_id = inl (not_found user_id) /\
     delete_user st' user_id = (inl (not_found user_id), st')).
Proof.
  split.
  - intros H. unfold delete_user. now rewrite H.
  - intros Hwf H.
    exists (with_users st (Py.delitem user_id (fake_users_db st))).
    assert (Hgone : Py.get user_id (Py.delitem user_id (fake_users_db st))
                    = None) by now apply get_delitem_same.
    split; [unfold delete_user; now rewrite H|].
    split; [cbn; now apply delitem_filter|].
    split; [intros k Hk; cbn; now apply get_delitem_other|].
    do 3 (split; [reflexivity|]).
    split.
    + rewrite get_user_by_id_eq. cbn. now rewrite Hgone.
    + unfold delete_user. cbn [with_users fake_users_db].
      apply contains_false_get in Hgone. now rewrite Hgone.
Qed.

Lemma delete_user_removes_one_entry_witness :
  delete_user (seed 0 0) 3 = (inl (not_found 3), seed 0 0) /\
  exists st',
    delete_user (seed 0 0) 1 = (inr 1, st') /\
    fake_users_db st' = [(2, User.mk 2 "katya" "katya@example.com" true 0)] /\
    delete_user st' 1 = (inl (not_found 1), st').
Proof.
  split.
  - apply (proj1 (delete_user_removes_one_entry (seed 0 0) 3)). reflexivity.
  - destruct (proj2 (delete_user_removes_one_entry (seed 0 0) 1))
      as (st' & Hd & Hdb & _ & _ & _ & _ & _ & Hagain).
    + unfold Py.wf. cbn. repeat constructor; cbn; intuition lia.
    + reflexivity.
    + exists st'. split; [exact Hd|]. split; [rewrite Hdb; reflexivity|].
      exact Hagain.
Defined.

(** [find] stops at the first element that passes the test. *)
Lemma find_first {A : Type} (p : A -> bool) (l : list A) (a : A) :
  find p l = Some a <->
  exists l1 l2, l = l1 ++ a :: l2 /\ p a = true /\
                forall x, In x l1 -> p x = false.
Proof.
  split.
  - induction l as [|x r IH]; simpl; [discriminate|].
    destruct (p x) eqn:E.
    + intros [= ->]. exists [], r. repeat split; [exact E | intros ? []].
    + intros H. destruct (IH H) as (l1 & l2 & -> & Ha & Hl).
      exists (x :: l1), l2. repeat split; [exact Ha|].
      intros y [<-|Hy]; [exact E | now apply Hl].
  - intros (l1 & l2 & -> & Ha & Hl).
    induction l1 as [|x r IH]; simpl.
    + now rewrite Ha.
    + rewrite (Hl x) by now left.
      apply IH. intros y Hy. apply Hl. now right.
Qed.

(** X3.  [get_user_by_username] answers with the first user, in the
    iteration order of the store, whose username equals the argument
    character for character: the users in front of it all have another
    username.  It answers 404, naming the username, exactly when no stored
    user has that username. *)
Theorem get_user_by_username_first_match (st : State) (username : string) :
  (forall u,
      get_user_by_username st username = inr u <->
      exists before after,
        Py.values (fake_users_db st) = before ++ u :: after /\
        User.username u = username /\
        forall x, In x before -> User.username x <> username) /\
  (get_user_by_username st username =
   inl (HTTPException HTTP_404_NOT_FOUND (username_not_found username)) <->
   forall x, In x (Py.values (fake_users_db st)) ->
             User.username x <> username).
Proof.
  unfold get_user_by_username. split.
  - intros u.
    destruct (find _ _) as [u0|] eqn:E.
    + split.
      * intros [= <-]. apply find_first in E as (l1 & l2 & Hl & Hu & Hb).
        exists l1, l2. split; [exact Hl|].
        split; [now apply String.eqb_eq|].
        intros x Hx. apply String.eqb_neq. now apply Hb.
      * intros (l1 & l2 & Hl & Hu & Hb).
        assert (E' : find (fun user => (User.username user =? username)%string)
                          (Py.values (fake_users_db st)) = Some u).
        { apply find_first. exists l1, l2. split; [exact Hl|].
          split; [now apply String.eqb_eq|].
          intros x Hx. apply String.eqb_neq. now apply Hb. }
        congruence.
    + split; [discriminate|].
      intros (l1 & l2 & Hl & Hu & _).
      assert (Hin : In u (Py.values (fake_users_db st))).
      { rewrite Hl. apply in_or_app. right. now left. }
      apply (find_none _ _ E) in Hin. now apply String.eqb_neq in Hin.
  - destruct (find _ _) as [u0|] eqn:E.
    + split; [discriminate|].
      intros H. apply find_some in E as [Hin Hu].
      apply String.eqb_eq in Hu. now apply H in Hin.
    + split; [|reflexivity].
      intros _ x Hx. apply String.eqb_neq. exact (find_none _ _ E x Hx).
Qed.

Lemma get_user_by_username_first_match_witness :
  get_user_by_username (seed 0 0) "katya" =
  inr (User.mk 2 "katya" "katya@example.com" true 0) /\
  get_user_by_username (seed 0 0) "Katya" =
  inl (HTTPException HTTP_404_NOT_FOUND (username_not_found "Katya")).
Proof.
  split.
  - apply (proj1 (get_user_by_username_first_match (seed 0 0) "katya")).
    exists [User.mk 1 "vasya" "vasya@example.com" true 0], [].
    split; [reflexivity|]. split; [reflexivity|].
    intros x [<-|[]]. discriminate.
  - apply (proj2 (get_user_by_username_first_match (seed 0 0) "Katya")).
    intros x [<-|[<-|[]]]; discriminate.
Defined.

(* ================================================================= *)
(** ** Creating messages and repeated sign-ups *)

(** X4.  [create_message_for_user] checks the id against the keys the
    store holds at that moment.  For a key it returns the message with the
    current message counter as id, the given user id, content and clock
    reading, appends it to [fake_messages_db], raises the message counter
    by one and leaves the users and the user counter alone.  For any
    other id it answers 404 with the state unchanged; in particular, once
    a user of a well-formed store is deleted no message can be created for
    its id, while the messages already stored for it remain. *)
Theorem create_message_for_user_checks_current_users
        (now : Z) (st : State) (user_id : Z) (message : MessageCreate.t) :
  (Py.contains user_id (fake_users_db st) = true ->
   create_message_for_user now st user_id message =
   (inr (Message.mk (message_id_counter st) user_id
                    (MessageCreate.content message) now),
    mkState (fake_users_db st)
            (fake_messages_db st ++
             [Message.mk (message_id_counter st) user_id
                         (MessageCreate.content message) now])
            (user_id_counter st)
            (message_id_counter st + 1))) /\
  (Py.contains user_id (fake_users_db st) = false ->
   create_message_for_user now st user_id message =
   (inl (not_found user_id), st)) /\
  (Py.wf (fake_users_db st) ->
   forall st',
     delete_user st user_id = (inr user_id, st') ->
     create_message_for_user now st' user_id message =
     (inl (not_found user_id), st') /\
     fake_messages_db st' = fake_messages_db st).
Proof.
  unfold create_message_for_user. split; [|split].
  - now intros ->.
  - now intros ->.
  - intros Hwf st'. unfold delete_user.
    destruct (negb _); [discriminate|].
    intros [= <-]. cbn [with_users fake_users_db fake_messages_db].
    assert (Hgone : Py.contains user_id
                      (Py.delitem user_id (fake_users_db st)) = false).
    { apply contains_false_get. now apply get_delitem_same. }
    now rewrite Hgone.
Qed.

Lemma create_message_for_user_checks_current_users_witness :
  create_message_for_user 5 (seed 0 0) 1 (MessageCreate.mk "hi") =
  (inr (Message.mk 1 1 "hi" 5),
   mkState (fake_users_db (seed 0 0)) [Message.mk 1 1 "hi" 5] 3 2) /\
  create_message_for_user 5 (seed 0 0) 99 (MessageCreate.mk "hi") =
  (inl (not_found 99), seed 0 0) /\
  create_message_for_user 5
    (snd (delete_user three_messages 1)) 1 (MessageCreate.mk "hi") =
  (inl (not_found 1), snd (delete_user three_messages 1)) /\
  fake_messages_db (snd (delete_user three_messages 1)) =
  fake_messages_db three_messages.
Proof.
  split; [|split].
  - apply (proj1 (create_message_for_user_checks_current_users
                    5 (seed 0 0) 1 (MessageCreate.mk "hi"))).
    reflexivity.
  - apply (proj1 (proj2 (create_message_for_user_checks_current_users
                           5 (seed 0 0) 99 (MessageCreate.mk "hi")))).
    reflexivity.
  - apply (proj2 (proj2 (create_message_for_user_checks_current_users
                           5 three_messages 1 (MessageCreate.mk "hi")))).
    + unfold Py.wf. cbn. repeat constructor; cbn; intuition lia.
    + reflexivity.
Defined.

Lemma delitem_snoc {V : Type} (k : Z) (v : V) (d : Py.dict V) :
  ~ In k (Py.keys d) -> Py.delitem k (d ++ [(k, v)]) = d.
Proof.
  induction d as [|[k' v'] r IH]; simpl; intros Hk.
  - now rewrite Z.eqb_refl.
  - destruct (k =? k') eqn:E.
    + apply Z.eqb_eq in E. subst. exfalso. auto.
    + rewrite IH; auto.
Qed.

(** X5.  A sign-up blocks its email for as long as the created user
    holds it.  In the state right after a successful [create_user],
    before any other change, a [create_user] with the same email,
    whatever its username, password and clock reading, is answered with
    the conflict error and changes nothing.  The block is not permanent:
    in a store whose keys are below the user counter, once the created
    user is deleted a [create_user] with the same email succeeds again
    and gets the next id, not the id of the deleted user.  The password
    of a sign-up has no influence on the returned user or on the state. *)
Theorem create_user_twice_conflicts (now : Z) (st : State) :
  (forall user u st',
      create_user now st user = (inr u, st') ->
      forall now' again,
        UserCreate.email again = UserCreate.email user ->
        create_user now' st' again = (inl conflict, st')) /\
  (forall user u st1 st2,
      (forall k, In k (Py.keys (fake_users_db st)) ->
                 k < user_id_counter st) ->
      create_user now st user = (inr u, st1) ->
      delete_user st1 (User.id u) = (inr (User.id u), st2) ->
      forall now' again,
        UserCreate.email again = UserCreate.email user ->
        fst (create_user now' st2 again) =
        inr (User.mk (User.id u + 1) (UserCreate.username again)
                     (UserCreate.email again) true now')) /\
  (forall username email password1 password2,
      create_user now st (UserCreate.mk username email password1) =
      create_user now st (UserCreate.mk username email password2)).
Proof.
  split; [|split; [|reflexivity]].
  - intros user u st'. unfold create_user at 1.
    destruct (existsb _ _); [discriminate|].
    intros [= <- <-] now' again He.
    apply create_user_taken.
    eexists. split; [cbn; apply In_values_setitem|].
    cbn. now rewrite He.
  - intros user u st1 st2 Hb. unfold create_user at 1.
    destruct (existsb _ _) eqn:Efree; [discriminate|].
    intros [= <- <-]. cbn [User.id].
    assert (Hfresh : ~ In (user_id_counter st) (Py.keys (fake_users_db st))).
    { intros Hin. apply Hb in Hin. lia. }
    unfold delete_user. cbn [fake_users_db with_users].
    destruct (negb _); [discriminate|].
    rewrite setitem_fresh, delitem_snoc by assumption.
    intros [= <-] now' again He.
    unfold create_user.
    cbn [with_users fake_users_db user_id_counter].
    now rewrite He, Efree.
Qed.

Lemma create_user_twice_conflicts_witness :
  create_user 8
    (snd (create_user 7 (seed 0 0)
            (UserCreate.mk "masha" "masha@example.com" "secret")))
    (UserCreate.mk "maria" "masha@example.com" "another") =
  (inl conflict,
   snd (create_user 7 (seed 0 0)
          (UserCreate.mk "masha" "masha@example.com" "secret"))) /\
  fst (create_user 9
         (snd (delete_user
                 (snd (create_user 7 (seed 0 0)
                         (UserCreate.mk "masha" "masha@example.com"
                                        "secret"))) 3))
         (UserCreate.mk "maria" "masha@example.com" "another")) =
  inr (User.mk 4 "maria" "masha@example.com" true 9).
Proof.
  destruct (create_user_twice_conflicts 7 (seed 0 0)) as (Hblock & Hfree & _).
  split.
  - apply (Hblock (UserCreate.mk "masha" "masha@example.com" "secret")
             (User.mk 3 "masha" "masha@example.com" true 7)
             (snd (create_user 7 (seed 0 0)
                     (UserCreate.mk "masha" "masha@example.com" "secret")))
             eq_refl 8 (UserCreate.mk "maria" "masha@example.com" "another")
             eq_refl).
  - apply (Hfree (UserCreate.mk "masha" "masha@example.com" "secret")
             (User.mk 3 "masha" "masha@example.com" true 7)
             (snd (create_user 7 (seed 0 0)
                     (UserCreate.mk "masha" "masha@example.com" "secret")))
             (snd (delete_user
                     (snd (create_user 7 (seed 0 0)
                             (UserCreate.mk "masha" "masha@example.com"
                                            "secret"))) 3))).
    + simpl. intros k [<-|[<-|[]]]; lia.
    + reflexivity.
    + reflexivity.
    + reflexivity.
Defined.

(* ================================================================= *)
(** ** How the updates compose *)

Lemma with_users_same (st : State) : with_users st (fake_users_db st) = st.
Proof. now destruct st. Qed.

Lemma patched_nothing (u : User.t) :
  patched (UserUpdate.mk None None None) u = u.
Proof. now destruct u. Qed.

Lemma patched_twice (user_update : UserUpdate.t) (u : User.t) :
  patched user_update (patched user_update u) = patched user_update u.
Proof. destruct user_update as [[x|] [y|] [z|]]; reflexivity. Qed.

(** X6.  A partial update whose payload carries no field is a no-op on a
    present id: it returns the stored user and the state is the same.  A
    partial update applied a second time with the same payload changes
    nothing further and returns the same answer, whether or not the id is
    present. *)
Theorem update_user_partial_noop_and_idempotent (st : State) (user_id : Z) :
  (forall u,
      Py.get user_id (fake_users_db st) = Some u ->
      update_user_partial st user_id (UserUpdate.mk None None None) =
      (inr u, st)) /\
  (forall user_update,
      update_user_partial (snd (update_user_partial st user_id user_update))
                          user_id user_update =
      (fst (update_user_partial st user_id user_update),
       snd (update_user_partial st user_id user_update))).
Proof.
  split.
  - intros u H. rewrite (update_user_partial_eq _ _ _ _ H).
    rewrite patched_nothing, modify_id by apply patched_nothing.
    now rewrite with_users_same.
  - intros user_update.
    destruct (Py.get user_id (fake_users_db st)) as [u|] eqn:E.
    + rewrite (update_user_partial_eq _ _ _ _ E). cbn [fst snd].
      set (st1 := with_users st _).
      assert (E1 : Py.get user_id (fake_users_db st1) =
                   Some (patched user_update u))
        by (subst st1; cbn; now rewrite get_modify_same, E).
      rewrite (update_user_partial_eq st1 _ _ _ E1).
      rewrite patched_twice. subst st1.
      cbn [with_users fake_users_db fake_messages_db user_id_counter
           message_id_counter].
      rewrite modify_modify.
      rewrite (modify_ext user_id
                 (fun v => patched user_update (patched user_update v))
                 (patched user_update))
        by (intros v; apply patched_twice).
      reflexivity.
    + rewrite (proj2 (update_absent _ _ E)). cbn [fst snd].
      now rewrite (proj2 (update_absent _ _ E)).
Qed.

Lemma update_user_partial_noop_and_idempotent_witness :
  update_user_partial (seed 0 0) 2 (UserUpdate.mk None None None) =
  (inr (User.mk 2 "katya" "katya@example.com" true 0), seed 0 0).
Proof.
  apply (proj1 (update_user_partial_noop_and_idempotent (seed 0 0) 2)).
  reflexivity.
Defined.

(** X7.  A full update is the partial update that carries the username
    and the email of the payload and no [is_active]: both return the same
    answer and the same state for every id, present or absent, and for
    every password. *)
Theorem update_user_full_is_partial_with_two_fields
        (st : State) (user_id : Z) (username email password : string) :
  update_user_full st user_id (UserCreate.mk username email password) =
  update_user_partial st user_id
                      (UserUpdate.mk (Some username) (Some email) None).
Proof.
  destruct (Py.get user_id (fake_users_db st)) as [u|] eqn:E.
  - rewrite (update_user_full_eq _ _ _ _ E),
            (update_user_partial_eq _ _ _ _ E).
    reflexivity.
  - rewrite (proj1 (update_absent _ _ E)), (proj2 (update_absent _ _ E)).
    reflexivity.
Qed.

(* ================================================================= *)
(** ** Pages and letter case *)

Lemma window_concat {A : Type} (l : list A) (n m s : nat) :
  firstn n (skipn s l) ++ firstn m (skipn (s + n) l) =
  firstn (n + m) (skipn s l).
Proof.
  rewrite (Nat.add_comm s n), <- skipn_skipn.
  generalize (skipn s l) as r. clear l s.
  induction n as [|n IH]; intros r; [reflexivity|].
  destruct r as [|x r]; cbn.
  - now rewrite firstn_nil.
  - now rewrite IH.
Qed.

(** X8.  Consecutive pages of the user listing fit together: with the same
    filters, the page at [skip] of size [limit] followed by the page at
    [skip + limit] of size [limit'] is the page at [skip] of size
    [limit + limit'].  A [skip] at or beyond the number of stored users
    gives the empty list, not an error. *)
Theorem get_users_pages_concatenate
        (st : State) (active_only : bool)
        (username_contains : option string) :
  (forall skip limit limit',
      0 <= skip -> 0 <= limit -> 0 <= limit' ->
      get_users st limit skip active_only username_contains ++
      get_users st limit' (skip + limit) active_only username_contains =
      get_users st (limit + limit') skip active_only username_contains) /\
  (forall skip limit,
      0 <= limit ->
      Z.of_nat (List.length (fake_users_db st)) <= skip ->
      get_users st limit skip active_only username_contains = []).
Proof.
  split.
  - intros skip limit limit' Hs Hl Hl'.
    rewrite !get_users_eq by lia. unfold users_listing.
    rewrite !Z2Nat.inj_add by lia. apply window_concat.
  - intros skip limit Hl Hs.
    rewrite get_users_eq by lia. unfold users_listing.
    rewrite skipn_all2; [apply firstn_nil|].
    eapply Nat.le_trans; [apply filter_length_le|].
    eapply Nat.le_trans; [apply filter_length_le|].
    unfold Py.values. rewrite length_map. lia.
Qed.

Lemma get_users_pages_concatenate_witness :
  get_users twelve_users 5 0 false None ++
  get_users twelve_users 5 5 false None =
  get_users twelve_users 10 0 false None /\
  get_users twelve_users 5 12 false None = [].
Proof.
  split.
  - apply (proj1 (get_users_pages_concatenate twelve_users false None)
             0 5 5); lia.
  - apply (proj2 (get_users_pages_concatenate twelve_users false None)
             12 5); [lia|].
    vm_compute. discriminate.
Defined.

Lemma lower_char_twice (c : ascii) :
  Py.lower_char (Py.lower_char c) = Py.lower_char c.
Proof.
  destruct c as [[] [] [] [] [] [] [] []]; vm_compute; reflexivity.
Qed.

Lemma lower_twice (s : string) : Py.lower (Py.lower s) = Py.lower s.
Proof.
  induction s as [|c s IH]; simpl; [reflexivity|].
  now rewrite lower_char_twice, IH.
Qed.

Lemma truthy_str_lower (q1 q2 : string) :
  Py.lower q1 = Py.lower q2 ->
  Py.truthy_str (Some q1) = Py.truthy_str (Some q2).
Proof.
  intros H. destruct q1, q2; try reflexivity; discriminate.
Qed.

(** X9.  Search and the username filter of the user listing read the
    query only through its lower-case form: two queries with the same
    lower-case form give the same results, and so does a query and its own
    lower-case form. *)
Theorem queries_compare_in_lower_case (st : State) :
  (forall q1 q2 limit include_inactive,
      Py.lower q1 = Py.lower q2 ->
      search_users st q1 limit include_inactive =
      search_users st q2 limit include_inactive) /\
  (forall q1 q2 limit skip active_only,
      Py.lower q1 = Py.lower q2 ->
      get_users st limit skip active_only (Some q1) =
      get_users st limit skip active_only (Some q2)) /\
  (forall q limit include_inactive,
      search_users st (Py.lower q) limit include_inactive =
      search_users st q limit include_inactive).
Proof.
  assert (Hs : forall q1 q2 limit include_inactive,
             Py.lower q1 = Py.lower q2 ->
             search_users st q1 limit include_inactive =
             search_users st q2 limit include_inactive).
  { intros q1 q2 limit include_inactive H.
    unfold search_users. now rewrite H. }
  split; [exact Hs|]. split.
  - intros q1 q2 limit skip active_only H.
    unfold get_users.
    rewrite (truthy_str_lower q1 q2 H), H. reflexivity.
  - intros q limit include_inactive. apply Hs, lower_twice.
Qed.

Lemma queries_compare_in_lower_case_witness :
  search_users (seed 0 0) "VaSyA" 10 false =
  search_users (seed 0 0) "vasya" 10 false /\
  get_users (seed 0 0) 10 0 false (Some "KAT") =
  get_users (seed 0 0) 10 0 false (Some "kat").
Proof.
  destruct (queries_compare_in_lower_case (seed 0 0)) as (Hs & Hu & _).
  split; [apply Hs | apply Hu]; reflexivity.
Defined.

(* ================================================================= *)
(** ** What the models accept *)

Lemma check_max_length_nil (field : string) (hi : option Z) (s : string) :
  check_max_length field hi s = [] ->
  forall m, hi = Some m -> Py.len s <= m.
Proof.
  unfold check_max_length. intros H m ->.
  destruct (m <? Py.len s) eqn:E; [discriminate|].
  now apply Z.ltb_ge in E.
Qed.

Lemma check_length_nil (field : string) (lo hi : option Z) (s : string) :
  check_length field lo hi s = [] ->
  (forall n, lo = Some n -> n <= Py.len s) /\
  (forall m, hi = Some m -> Py.len s <= m).
Proof.
  unfold check_length. destruct lo as [n|].
  - destruct (Py.len s <? n) eqn:E; [discriminate|].
    apply Z.ltb_ge in E. intros H. split.
    + now intros ? [= <-].
    + now apply (check_max_length_nil field).
  - intros H. split; [discriminate|].
    now apply (check_max_length_nil field).
Qed.

Lemma check_length_short (field : string) (n : Z) (hi : option Z)
      (s : string) :
  Py.len s < n ->
  check_length field (Some n) hi s = [(field, min_length n)].
Proof.
  intros H. unfold check_length.
  destruct (Py.len s <? n) eqn:E; [reflexivity|].
  apply Z.ltb_ge in E. lia.
Qed.

Lemma check_length_long (field : string) (n m : Z) (s : string) :
  n <= Py.len s -> m < Py.len s ->
  check_length field (Some n) (Some m) s = [(field, max_length m)].
Proof.
  intros Hn Hm. unfold check_length, check_max_length.
  destruct (Py.len s <? n) eqn:E; [apply Z.ltb_lt in E; lia|].
  destruct (m <? Py.len s) eqn:E'; [reflexivity|].
  apply Z.ltb_ge in E'. lia.
Qed.

Lemma UserCreate_validate_inl (r : UserCreate.raw) (es : list FieldError) :
  UserCreate.validate r = inl es -> es = UserCreate.errors r /\ es <> [].
Proof.
  unfold UserCreate.validate.
  destruct (UserCreate.errors r) as [|e l] eqn:E.
  - destruct (UserCreate_validate_accepts r E) as (u & e & p & -> & _).
    discriminate.
  - intros H. assert (es = e :: l).
    { destruct (UserCreate.raw_username r), (UserCreate.raw_email r),
        (UserCreate.raw_password r); congruence. }
    subst. split; [reflexivity | discriminate].
Qed.

(** X10.  [UserCreate] accepts a body exactly when all three fields are
    present, the username has 3 to 50 characters and the password at
    least 6, and then hands the three strings on as they are.  A rejection
    always carries at least one error; a username that is too short or too
    long and a password that is too short are reported under their field
    with the violated bound, the password once: the [validate_password]
    validator adds nothing to the field constraint. *)
Theorem UserCreate_accepts_exactly (r : UserCreate.raw) :
  (forall user,
      UserCreate.validate r = inr user <->
      r = UserCreate.mk_raw (Some (UserCreate.username user))
                            (Some (UserCreate.email user))
                            (Some (UserCreate.password user)) /\
      3 <= Py.len (UserCreate.username user) <= 50 /\
      6 <= Py.len (UserCreate.password user)) /\
  (forall es, UserCreate.validate r = inl es ->
              es = UserCreate.errors r /\ es <> []) /\
  (forall u, UserCreate.raw_username r = Some u -> Py.len u < 3 ->
             In ("username", min_length 3) (UserCreate.errors r)) /\
  (forall u, UserCreate.raw_username r = Some u -> 50 < Py.len u ->
             In ("username", max_length 50) (UserCreate.errors r)) /\
  (forall u e p,
      r = UserCreate.mk_raw (Some u) (Some e) (Some p) ->
      3 <= Py.len u <= 50 -> Py.len p < 6 ->
      UserCreate.validate r = inl [("password", min_length 6)]).
Proof.
  split; [|split; [|split; [|split]]].
  - intros user. split.
    + intros H. pose proof (validate_inr_errors _ _ H) as He.
      destruct (UserCreate_validate_accepts r He) as (u & e & p & -> & Hv).
      rewrite Hv in H. injection H as <-. cbn.
      split; [reflexivity|].
      unfold UserCreate.errors in He.
      cbn [UserCreate.raw_username UserCreate.raw_email
           UserCreate.raw_password check_str] in He.
      apply app_eq_nil in He as [Hu He].
      apply app_eq_nil in He as [_ Hp].
      apply check_length_nil in Hu as [Hu1 Hu2].
      destruct (check_length "password" (Some 6) None p) eqn:Ep;
        [|discriminate].
      apply check_length_nil in Ep as [Hp1 _].
      specialize (Hu1 3 eq_refl). specialize (Hu2 50 eq_refl).
      specialize (Hp1 6 eq_refl). lia.
    + intros (-> & Hu & Hp). destruct user as [u e p]. cbn in *.
      now apply UserCreate_validate_ok.
  - apply UserCreate_validate_inl.
  - intros u Hu Hlen. unfold UserCreate.errors. rewrite Hu.
    apply in_or_app. left. cbn [check_str].
    rewrite check_length_short by assumption. now left.
  - intros u Hu Hlen. unfold UserCreate.errors. rewrite Hu.
    apply in_or_app. left. cbn [check_str].
    rewrite check_length_long by lia. now left.
  - intros u e p -> Hu Hp.
    unfold UserCreate.validate, UserCreate.errors.
    cbn [UserCreate.raw_username UserCreate.raw_email
         UserCreate.raw_password check_str].
    rewrite (check_length_ok "username") by (intros ? [= <-]; lia).
    rewrite (check_length_ok "email") by discriminate.
    rewrite check_length_short by assumption. reflexivity.
Qed.

Lemma UserCreate_accepts_exactly_witness :
  UserCreate.validate
    (UserCreate.mk_raw (Some "masha") (Some "masha@example.com")
                       (Some "secret")) =
  inr (UserCreate.mk "masha" "masha@example.com" "secret") /\
  In ("username", min_length 3)
     (UserCreate.errors
        (UserCreate.mk_raw (Some "ma") (Some "masha@example.com")
                           (Some "secret"))) /\
  UserCreate.validate
    (UserCreate.mk_raw (Some "masha") (Some "masha@example.com")
                       (Some "12345")) =
  inl [("password", min_length 6)].
Proof.
  split; [|split].
  - apply (proj1 (UserCreate_accepts_exactly _)).
    split; [reflexivity|]. vm_compute.
    repeat split; discriminate.
  - apply (proj1 (proj2 (proj2 (UserCreate_accepts_exactly
             (UserCreate.mk_raw (Some "ma") (Some "masha@example.com")
                                (Some "secret"))))) "ma" eq_refl).
    reflexivity.
  - apply (proj2 (proj2 (proj2 (proj2 (UserCreate_accepts_exactly
             (UserCreate.mk_raw (Some "masha") (Some "masha@example.com")
                                (Some "12345"))))))
             "masha" "masha@example.com" "12345" eq_refl).
    + vm_compute. split; discriminate.
    + reflexivity.
Defined.

(** X11.  [MessageCreate] accepts a body exactly when [content] is
    present with 1 to 1000 characters; an empty content is reported as
    too short.  [UserUpdate] constrains the username alone: a body is
    accepted, unchanged, exactly when its username is absent or has 3 to
    50 characters, whatever its email and [is_active]. *)
Theorem MessageCreate_and_UserUpdate_accept_exactly :
  (forall r message,
      MessageCreate.validate r = inr message <->
      r = MessageCreate.mk_raw (Some (MessageCreate.content message)) /\
      1 <= Py.len (MessageCreate.content message) <= 1000) /\
  (forall c, Py.len c < 1 ->
             MessageCreate.validate (MessageCreate.mk_raw (Some c)) =
             inl [("content", min_length 1)]) /\
  (forall r r',
      UserUpdate.validate r = inr r' <->
      r' = r /\
      forall u, UserUpdate.username r = Some u -> 3 <= Py.len u <= 50).
Proof.
  split; [|split].
  - intros [[c|]] [c']; unfold MessageCreate.validate, MessageCreate.errors;
      cbn [MessageCreate.raw_content check_str MessageCreate.content].
    + destruct (check_length "content" (Some 1) (Some 1000) c) eqn:E.
      * apply check_length_nil in E as [H1 H2].
        specialize (H1 1 eq_refl). specialize (H2 1000 eq_refl).
        split; [intros [= <-]; split; [reflexivity | lia]|].
        now intros [[= <-] _].
      * split; [discriminate|]. intros [[= <-] H].
        rewrite check_length_ok in E; [discriminate|..];
          intros ? [= <-]; lia.
    + split; [discriminate | intros [[=] _]].
  - intros c Hc. unfold MessageCreate.validate, MessageCreate.errors.
    cbn [MessageCreate.raw_content check_str].
    now rewrite check_length_short.
  - intros r r'. unfold UserUpdate.validate, UserUpdate.errors, check_opt_str.
    destruct (UserUpdate.username r) as [u|] eqn:Eu.
    + destruct (check_length "username" (Some 3) (Some 50) u) eqn:E.
      * apply check_length_nil in E as [H1 H2].
        specialize (H1 3 eq_refl). specialize (H2 50 eq_refl).
        split; [intros [= <-]; split; [reflexivity|]|now intros [-> _]].
        intros ? [= <-]. lia.
      * split; [discriminate|]. intros [-> H].
        specialize (H u eq_refl).
        rewrite check_length_ok in E; [discriminate|..];
          intros ? [= <-]; lia.
    + split; [intros [= <-]; split; [reflexivity | discriminate]|].
      now intros [-> _].
Qed.

Lemma MessageCreate_and_UserUpdate_accept_exactly_witness :
  MessageCreate.validate (MessageCreate.mk_raw (Some "hi")) =
  inr (MessageCreate.mk "hi") /\
  MessageCreate.validate (MessageCreate.mk_raw (Some "")) =
  inl [("content", min_length 1)] /\
  UserUpdate.validate (UserUpdate.mk None (Some "") (Some false)) =
  inr (UserUpdate.mk None (Some "") (Some false)).
Proof.
  destruct MessageCreate_and_UserUpdate_accept_exactly as (Hm & He & Hu).
  split; [|split].
  - apply Hm. split; [reflexivity|]. vm_compute. split; discriminate.
  - apply He. reflexivity.
  - apply Hu. split; [reflexivity | discriminate].
Defined.

(* ================================================================= *)
(** ** What a request leaves alone *)

Lemma serve_read_state (now : Z) (st : State) (r : Request) :
  mutating r = false -> snd (serve now st r) = st.
Proof.
  intros H. unfold serve.
  destruct (request_errors r); [|reflexivity].
  destruct r; try discriminate; try reflexivity.
  destruct (get_messages _ _ _ _) as [res st'] eqn:E.
  cbn. replace st' with (snd (get_messages st user_id (default 20 limit)
                                (default "desc" sort_by_date)))
    by now rewrite E.
  apply get_messages_state.
Qed.

(* ================================================================= *)
(** ** Invariants of the reachable states *)

Lemma effect_messages (st st' : State) :
  effect st st' ->
  (fake_messages_db st' = fake_messages_db st /\
   message_id_counter st' = message_id_counter st) \/
  (exists m,
      fake_messages_db st' = fake_messages_db st ++ [m] /\
      Message.id m = message_id_counter st /\
      message_id_counter st' = message_id_counter st + 1).
Proof.
  intros [|now user|now user_id message| |]; cbn; auto.
  - left. unfold create_user. now destruct (existsb _ _).
  - unfold create_message_for_user. destruct (negb _); cbn; [auto|].
    right. eexists. repeat split.
Qed.

Lemma run_messages (st : State) (reqs : list (Z * Request)) :
  exists added,
    fake_messages_db (run st reqs) = fake_messages_db st ++ added.
Proof.
  revert st. induction reqs as [|[now r] rest IH]; intros st; cbn.
  - exists []. now rewrite app_nil_r.
  - destruct (IH (snd (serve now st r))) as [added ->].
    destruct (effect_messages _ _ (serve_effect now st r))
      as [[-> _]|(m & -> & _)].
    + now exists added.
    + exists (m :: added). now rewrite <- app_assoc.
Qed.

Lemma reachable_messages (st : State) :
  reachable st ->
  message_ids st =
  map Z.of_nat (seq 1 (List.length (fake_messages_db st))) /\
  message_id_counter st = Z.of_nat (List.length (fake_messages_db st)) + 1.
Proof.
  induction 1 as [t1 t2|st now r _ [IHi IHc]]; [split; reflexivity|].
  destruct (effect_messages _ _ (serve_effect now st r))
    as [[Hm Hc]|(m & Hm & Hi & Hc)]; unfold message_ids in *.
  - rewrite Hm, Hc. now split.
  - rewrite Hm, Hc. rewrite map_app, length_app, IHi. cbn [List.length map].
    rewrite Nat.add_1_r, seq_S, map_app. cbn [map].
    split; [|lia]. f_equal. rewrite Hi, IHc. f_equal. lia.
Qed.

(** X13.  Messages are numbered in sequence and never removed: in every
    reachable state the stored messages carry the ids 1, 2, ..., n in
    that order and the message counter is n + 1.  Along any run from any
    state the messages already stored stay in front, unchanged, and new
    ones are added behind them. *)
Theorem messages_numbered_and_append_only (st : State) :
  (reachable st ->
   message_ids st =
   map Z.of_nat (seq 1 (List.length (fake_messages_db st))) /\
   message_id_counter st =
   Z.of_nat (List.length (fake_messages_db st)) + 1) /\
  (forall reqs,
      exists added,
        fake_messages_db (run st reqs) = fake_messages_db st ++ added).
Proof.
  split; [apply reachable_messages | apply run_messages].
Qed.

Lemma messages_numbered_and_append_only_witness :
  message_ids three_messages = [1; 2; 3] /\
  message_id_counter three_messages = 4.
Proof.
  destruct (proj1 (messages_numbered_and_append_only three_messages))
    as (Hi & Hc).
  - unfold three_messages. cbn [run].
    do 3 apply reachable_serve. apply reachable_seed.
  - split; [rewrite Hi | rewrite Hc]; reflexivity.
Defined.

Lemma sorted_keys_delitem {V : Type} (k : Z) (d : Py.dict V) :
  StronglySorted Z.lt (Py.keys d) ->
  StronglySorted Z.lt (Py.keys (Py.delitem k d)).
Proof.
  induction d as [|[k0 v0] r IH]; simpl; [auto|].
  intros H. apply StronglySorted_inv in H as [Hr Hk].
  destruct (k =? k0); [exact Hr|].
  simpl. constructor; [now apply IH|].
  rewrite Forall_forall in *. intros x Hx.
  apply Hk. now apply In_keys_delitem in Hx.
Qed.

(** A strictly increasing list of integers from [lo] up to, not
    including, [hi] has at most [hi - lo] elements. *)
Lemma sorted_bounded_length (l : list Z) (lo hi : Z) :
  StronglySorted Z.lt l ->
  (forall k, In k l -> lo <= k < hi) ->
  lo <= hi ->
  Z.of_nat (List.length l) <= hi - lo.
Proof.
  intros Hs. revert lo.
  induction Hs as [|a r Hr IH Ha]; intros lo Hb Hle; cbn [List.length];
    [lia|].
  assert (Ha' : lo <= a < hi) by (apply Hb; now left).
  specialize (IH (a + 1)).
  rewrite Forall_forall in Ha.
  assert (Z.of_nat (List.length r) <= hi - (a + 1)).
  { apply IH; [|lia]. intros k Hk.
    specialize (Ha k Hk). specialize (Hb k (or_intror Hk)). lia. }
  lia.
Qed.

(** The ordering part of the state: keys in increasing order and at
    least 1, and every message filed under a user id that was assigned. *)
Lemma effect_order (st st' : State) :
  effect st st' -> store_ok st ->
  StronglySorted Z.lt (Py.keys (fake_users_db st)) /\
  (forall k, In k (Py.keys (fake_users_db st)) -> 1 <= k) /\
  1 <= user_id_counter st /\
  (forall m, In m (fake_messages_db st) ->
             1 <= Message.user_id m < user_id_counter st) ->
  StronglySorted Z.lt (Py.keys (fake_users_db st')) /\
  (forall k, In k (Py.keys (fake_users_db st')) -> 1 <= k) /\
  1 <= user_id_counter st' /\
  (forall m, In m (fake_messages_db st') ->
             1 <= Message.user_id m < user_id_counter st').
Proof.
  intros He Hok (Hs & Hk & Hc & Hm).
  destruct He as [|now user|now user_id message|user_id|user_id f Hf].
  - auto.
  - unfold create_user. destruct (existsb _ _); cbn; [auto|].
    rewrite setitem_fresh
      by (intros Hin; apply (ok_user_bound st Hok) in Hin; lia).
    unfold Py.keys. rewrite map_app. cbn [map fst].
    split; [|split; [|split]].
    + apply sorted_snoc; [exact Hs|].
      rewrite Forall_forall. apply (ok_user_bound st Hok).
    + intros k Hin. apply in_app_or in Hin as [Hin|[<-|[]]]; auto.
    + lia.
    + intros m Hin. specialize (Hm m Hin). lia.
  - unfold create_message_for_user.
    destruct (Py.contains user_id (fake_users_db st)) eqn:E; cbn; [|auto].
    split; [exact Hs|]. split; [exact Hk|]. split; [exact Hc|].
    intros m Hin. apply in_app_or in Hin as [Hin|[<-|[]]]; [auto|].
    cbn. apply contains_keys in E.
    split; [now apply Hk | now apply (ok_user_bound st Hok)].
  - cbn. split; [now apply sorted_keys_delitem|].
    split; [|auto]. intros k Hin. apply In_keys_delitem in Hin. auto.
  - cbn [with_users fake_users_db fake_messages_db user_id_counter].
    rewrite keys_modify. auto.
Qed.

Lemma reachable_order (st : State) :
  reachable st ->
  StronglySorted Z.lt (Py.keys (fake_users_db st)) /\
  (forall k, In k (Py.keys (fake_users_db st)) -> 1 <= k) /\
  1 <= user_id_counter st /\
  (forall m, In m (fake_messages_db st) ->
             1 <= Message.user_id m < user_id_counter st).
Proof.
  induction 1 as [t1 t2|st now r Hr IH].
  - cbn. split; [|split; [|split]].
    + repeat constructor.
    + intros k [<-|[<-|[]]]; lia.
    + lia.
    + intros m [].
  - eapply effect_order; [apply serve_effect | now apply reachable_ok | exact IH].
Qed.

(** X14.  In every reachable state the users are stored in increasing
    order of id, so listing and search return them in that order; every
    id is at least 1 and below the user counter; the number of stored
    users is at most the counter minus one; and every stored
    message carries a user id that is at least 1 and below the user
    counter, that is, an id that was handed out, even if that user has
    been deleted since. *)
Theorem users_in_id_order (st : State) :
  reachable st ->
  StronglySorted Z.lt (user_ids st) /\
  (forall i, In i (user_ids st) -> 1 <= i < user_id_counter st) /\
  Z.of_nat (List.length (fake_users_db st)) <= user_id_counter st - 1 /\
  (forall m, In m (fake_messages_db st) ->
             1 <= Message.user_id m < user_id_counter st).
Proof.
  intros Hr. pose proof (reachable_ok st Hr) as Hok.
  destruct (reachable_order st Hr) as (Hs & Hk & Hc & Hm).
  rewrite (user_ids_keys st (ok_self st Hok)).
  assert (Hb : forall i, In i (Py.keys (fake_users_db st)) ->
                         1 <= i < user_id_counter st).
  { intros i Hi. split; [now apply Hk | now apply (ok_user_bound st Hok)]. }
  split; [exact Hs|]. split; [exact Hb|]. split; [|exact Hm].
  rewrite <- (length_map fst (fake_users_db st)).
  pose proof (sorted_bounded_length _ 1 (user_id_counter st) Hs Hb Hc).
  unfold Py.keys in *. lia.
Qed.

Lemma users_in_id_order_witness :
  StronglySorted Z.lt (user_ids twelve_users) /\
  Z.of_nat (List.length (fake_users_db twelve_users)) <=
  user_id_counter twelve_users - 1.
Proof.
  destruct (users_in_id_order twelve_users) as (Hs & _ & Ht & _).
  - unfold twelve_users. cbn [run map].
    do 10 apply reachable_serve. apply reachable_seed.
  - split; [exact Hs | exact Ht].
Defined.

Lemma In_values_modify {V : Type} (k : Z) (f : V -> V) (d : Py.dict V)
      (v' : V) :
  In v' (Py.values (Py.modify k f d)) ->
  exists v, In v (Py.values d) /\ (v' = v \/ v' = f v).
Proof.
  unfold Py.values. rewrite in_map_iff. intros ([k0 v0] & <- & Hin).
  apply In_modify in Hin as (v & Hv & Hc).
  exists v. split; [now apply (in_map snd) in Hv|].
  destruct Hc as [->|[_ ->]]; auto.
Qed.

Lemma In_values_setitem_inv {V : Type} (k : Z) (v v' : V) (d : Py.dict V) :
  In v' (Py.values (Py.setitem k v d)) -> v' = v \/ In v' (Py.values d).
Proof.
  unfold Py.values. rewrite in_map_iff. intros ([k0 v0] & <- & Hin).
  apply In_setitem in Hin as [[= -> ->]|Hin]; [now left|].
  right. now apply (in_map snd) in Hin.
Qed.

Lemma In_values_delitem {V : Type} (k : Z) (v' : V) (d : Py.dict V) :
  In v' (Py.values (Py.delitem k d)) -> In v' (Py.values d).
Proof.
  unfold Py.values. rewrite !in_map_iff. intros ([k0 v0] & <- & Hin).
  exists (k0, v0). split; [reflexivity | now apply In_delitem in Hin].
Qed.

Lemma UserCreate_validate_bounds (r : UserCreate.raw) (user : UserCreate.t) :
  UserCreate.validate r = inr user ->
  3 <= Py.len (UserCreate.username user) <= 50.
Proof.
  intros H. pose proof (validate_inr_errors _ _ H) as He.
  destruct (UserCreate_validate_accepts r He) as (u & e & p & -> & Hv).
  rewrite Hv in H. injection H as <-. cbn.
  unfold UserCreate.errors in He.
  cbn [UserCreate.raw_username check_str] in He.
  apply app_eq_nil in He as [Hu _].
  apply check_length_nil in Hu as [Hu1 Hu2].
  specialize (Hu1 3 eq_refl). specialize (Hu2 50 eq_refl). lia.
Qed.

Lemma MessageCreate_validate_bounds (r : MessageCreate.raw)
      (message : MessageCreate.t) :
  MessageCreate.validate r = inr message ->
  1 <= Py.len (MessageCreate.content message) <= 1000.
Proof.
  unfold MessageCreate.validate, MessageCreate.errors.
  destruct r as [[c|]]; cbn [MessageCreate.raw_content check_str];
    [|discriminate].
  destruct (check_length "content" (Some 1) (Some 1000) c) eqn:E;
    [|discriminate].
  intros [= <-]. cbn.
  apply check_length_nil in E as [H1 H2].
  specialize (H1 1 eq_refl). specialize (H2 1000 eq_refl). lia.
Qed.

Lemma UserUpdate_errors_bounds (body : UserUpdate.t) (x : string) :
  UserUpdate.errors body = [] ->
  UserUpdate.username body = Some x -> 3 <= Py.len x <= 50.
Proof.
  unfold UserUpdate.errors, check_opt_str. intros H Hx. rewrite Hx in H.
  apply check_length_nil in H as [H1 H2].
  specialize (H1 3 eq_refl). specialize (H2 50 eq_refl). lia.
Qed.

(** One request keeps the stored users and messages within the bounds
    of the models. *)
Lemma serve_valid (now : Z) (st : State) (r : Request) :
  (forall u, In u (Py.values (fake_users_db st)) -> valid_user u) /\
  (forall m, In m (fake_messages_db st) -> valid_message m) ->
  (forall u, In u (Py.values (fake_users_db (snd (serve now st r)))) ->
             valid_user u) /\
  (forall m, In m (fake_messages_db (snd (serve now st r))) ->
             valid_message m).
Proof.
  intros [Hu Hm].
  destruct (mutating r) eqn:Hmut;
    [|now rewrite (serve_read_state now st r Hmut)].
  unfold serve. destruct (request_errors r) eqn:E; [|now split].
  destruct r; try discriminate.
  - unfold delete_user. destruct (negb _); cbn; [now split|].
    split; [|exact Hm]. intros u Hin. apply In_values_delitem in Hin. auto.
  - destruct (UserCreate.validate body) as [es|user] eqn:Hv; [now split|].
    apply UserCreate_validate_bounds in Hv.
    unfold create_user. destruct (existsb _ _); cbn; [now split|].
    split; [|exact Hm].
    intros u Hin. apply In_values_setitem_inv in Hin as [->|Hin]; auto.
  - destruct (MessageCreate.validate body) as [es|message] eqn:Hv;
      [now split|].
    apply MessageCreate_validate_bounds in Hv.
    unfold create_message_for_user. destruct (negb _); cbn; [now split|].
    split; [exact Hu|].
    intros m Hin. apply in_app_or in Hin as [Hin|[<-|[]]]; auto.
  - destruct (UserCreate.validate body) as [es|user_update] eqn:Hv;
      [now split|].
    apply UserCreate_validate_bounds in Hv.
    destruct (update_user_full st user_id user_update) as [res st'] eqn:Eu.
    cbn. destruct (update_user_full_state st user_id user_update) as [H|H];
      rewrite Eu in H; cbn in H; subst st'; [now split|].
    split; [|exact Hm]. cbn [with_users fake_users_db].
    intros u Hin. apply In_values_modify in Hin as (v & Hv' & [->| ->]); auto.
  - cbn [request_errors] in E. apply app_eq_nil in E as [_ E].
    destruct (update_user_partial st user_id body) as [res st'] eqn:Eu.
    cbn. destruct (update_user_partial_state st user_id body) as [H|H];
      rewrite Eu in H; cbn in H; subst st'; [now split|].
    split; [|exact Hm]. cbn [with_users fake_users_db].
    intros u Hin. apply In_values_modify in Hin as (v & Hv' & [->| ->]); auto.
    unfold valid_user, patched. cbn [User.username].
    destruct (UserUpdate.username body) as [x|] eqn:Ex; cbn [default].
    + now apply (UserUpdate_errors_bounds body).
    + now apply Hu.
Qed.

(** X15.  Validation protects the store: in every reachable state each
    stored user has a username of 3 to 50 characters and each stored
    message a content of 1 to 1000 characters, so everything the store
    holds satisfies the constraints of the models it is returned
    through. *)
Theorem stored_data_within_model_bounds (st : State) :
  reachable st ->
  (forall u, In u (Py.values (fake_users_db st)) -> valid_user u) /\
  (forall m, In m (fake_messages_db st) -> valid_message m).
Proof.
  induction 1 as [t1 t2|st now r _ IH].
  - split; [|intros m []].
    intros u [<-|[<-|[]]]; vm_compute; split; discriminate.
  - now apply serve_valid.
Qed.

Lemma stored_data_within_model_bounds_witness :
  valid_user (User.mk 1 "vasya" "vasya@example.com" false 0) /\
  valid_message (Message.mk 1 1 "first" 5).
Proof.
  split.
  - apply (proj1 (stored_data_within_model_bounds seed_vasya_inactive
                    (reachable_serve (seed 0 0) 0
                       (PATCH_user 1 (UserUpdate.mk None None (Some false)))
                       (reachable_seed 0 0)))).
    simpl. auto.
  - assert (Hr : reachable three_messages).
    { unfold three_messages. cbn [run].
      do 3 apply reachable_serve. apply reachable_seed. }
    apply (proj2 (stored_data_within_model_bounds three_messages Hr)).
    simpl. auto.
Defined.

(* ================================================================= *)
(** ** Deactivation and the newest messages *)

Lemma In_get {V : Type} (k : Z) (v : V) (d : Py.dict V) :
  Py.wf d -> In (k, v) d -> Py.get k d = Some v.
Proof.
  unfold Py.wf.
  induction d as [|[k' v'] r IH]; simpl; [contradiction|].
  intros Hnd [H|H].
  - injection H as -> ->. now rewrite Z.eqb_refl.
  - inversion Hnd as [|? ? Hk Hr]; subst.
    destruct (k =? k') eqn:E.
    + apply Z.eqb_eq in E. subst k'.
      exfalso. apply Hk. change k with (fst (k, v)). now apply in_map.
    + now apply IH.
Qed.

(** In a store that satisfies the invariant, a user found among the
    values with a given id is the entry filed under that id. *)
Lemma value_by_id (st : State) (x : User.t) :
  store_ok st ->
  In x (Py.values (fake_users_db st)) ->
  Py.get (User.id x) (fake_users_db st) = Some x.
Proof.
  intros Hok Hin. unfold Py.values in Hin.
  apply in_map_iff in Hin as ([k v] & <- & Hin). cbn.
  rewrite (ok_self st Hok k v Hin).
  now apply In_get; [apply (ok_keys st Hok)|].
Qed.

(** X16.  Deactivation hides a user without removing it.  After the
    partial update [{is_active: false}] of a present id, in a store that
    satisfies the invariant of the reachable states, the user is still
    returned by [get_user_by_id], now inactive, but no user with that id
    is returned by the user listing with [active_only] or by search
    without [include_inactive]. *)
Theorem deactivated_user_hidden_not_removed
        (st : State) (user_id : Z) (u : User.t) :
  store_ok st ->
  Py.get user_id (fake_users_db st) = Some u ->
  get_user_by_id
    (snd (update_user_partial st user_id
            (UserUpdate.mk None None (Some false)))) user_id =
  inr (set_is_active false u) /\
  (forall limit skip username_contains x,
      0 <= limit -> 0 <= skip ->
      In x (get_users
              (snd (update_user_partial st user_id
                      (UserUpdate.mk None None (Some false))))
              limit skip true username_contains) ->
      User.id x <> user_id) /\
  (forall q limit x,
      0 <= limit ->
      In x (search_users
              (snd (update_user_partial st user_id
                      (UserUpdate.mk None None (Some false))))
              q limit false) ->
      User.id x <> user_id).
Proof.
  intros Hok H.
  rewrite (update_user_partial_eq _ _ _ _ H). cbn [snd].
  set (f := patched (UserUpdate.mk None None (Some false))).
  set (st1 := with_users st (Py.modify user_id f (fake_users_db st))).
  assert (Hok1 : store_ok st1) by now apply store_ok_modify.
  assert (Hget : Py.get user_id (fake_users_db st1) =
                 Some (set_is_active false u)).
  { subst st1. cbn. now rewrite get_modify_same, H. }
  assert (Hhidden : forall x, In x (Py.values (fake_users_db st1)) ->
                              User.is_active x = true ->
                              User.id x <> user_id).
  { intros x Hin Hact Hid.
    pose proof (value_by_id st1 x Hok1 Hin) as Hx.
    rewrite Hid, Hget in Hx. injection Hx as <-. discriminate. }
  split; [rewrite get_user_by_id_eq; now rewrite Hget|]. split.
  - intros limit skip username_contains x Hl Hs Hin.
    rewrite get_users_eq in Hin by assumption.
    unfold users_listing in Hin. apply In_window in Hin.
    apply filter_In in Hin as [Hin _].
    apply filter_In in Hin as [Hin Hact]. now apply Hhidden.
  - intros q limit x Hl Hin.
    rewrite search_users_eq in Hin by assumption.
    unfold search_listing in Hin.
    apply (In_window x _ 0%nat) in Hin.
    apply filter_In in Hin as [Hin Hmatch].
    apply search_match_spec in Hmatch as [_ Hact].
    apply Hhidden; auto.
Qed.

Lemma deactivated_user_hidden_not_removed_witness :
  get_user_by_id seed_vasya_inactive 1 =
  inr (User.mk 1 "vasya" "vasya@example.com" false 0) /\
  ~ In (User.mk 1 "vasya" "vasya@example.com" false 0)
       (search_users seed_vasya_inactive "vasya" 10 false).
Proof.
  destruct (deactivated_user_hidden_not_removed (seed 0 0) 1
              (User.mk 1 "vasya" "vasya@example.com" true 0)
              (store_ok_seed 0 0) eq_refl)
    as (Hget & _ & Hsearch).
  split; [exact Hget|].
  intros Hin.
  apply (Hsearch "vasya" 10
           (User.mk 1 "vasya" "vasya@example.com" false 0));
    [lia | exact Hin | reflexivity].
Defined.

Lemma sorted_app_inv {A : Type} (R : A -> A -> Prop) (l1 l2 : list A) :
  StronglySorted R (l1 ++ l2) ->
  forall a b, In a l1 -> In b l2 -> R a b.
Proof.
  induction l1 as [|x r IH]; simpl; intros H a b Ha Hb; [contradiction|].
  apply StronglySorted_inv in H as [Hr Hx].
  destruct Ha as [<-|Ha].
  - rewrite Forall_forall in Hx. apply Hx. apply in_or_app. now right.
  - now apply IH.
Qed.

(** X17.  The limit of the message listing cuts off the oldest messages
    under ["desc"] and the newest under ["asc"]: the filtered messages
    split into the returned ones and a remainder, and with ["desc"] no
    message of the remainder is newer than a returned one, with ["asc"]
    none is older.  When [limit] is at least the number of filtered
    messages the remainder is empty and nothing is lost. *)
Theorem get_messages_limit_keeps_extremes (st : State) :
  forall user_id limit sort_by_date,
    0 <= limit ->
    (forall i, user_id = Some i -> 1 <= i) ->
    exists rest,
      Permutation (fst (get_messages st user_id limit sort_by_date) ++ rest)
                  (messages_of user_id (fake_messages_db st)) /\
      (sort_by_date = "desc" ->
       forall m m',
         In m (fst (get_messages st user_id limit sort_by_date)) ->
         In m' rest ->
         Message.created_at m' <= Message.created_at m) /\
      (sort_by_date = "asc" ->
       forall m m',
         In m (fst (get_messages st user_id limit sort_by_date)) ->
         In m' rest ->
         Message.created_at m <= Message.created_at m') /\
      (Z.of_nat (List.length (messages_of user_id (fake_messages_db st)))
       <= limit -> rest = []).
Proof.
  intros user_id limit sort_by_date Hl Hid.
  rewrite get_messages_eq by assumption. cbn [fst].
  rewrite slice_prefix by assumption.
  set (sorted := Py.sorted_by Message.created_at
                   (sort_by_date =? "desc")%string
                   (messages_of user_id (fake_messages_db st))).
  exists (skipn (Z.to_nat limit) sorted).
  split; [rewrite firstn_skipn; apply sorted_by_perm|].
  split; [|split].
  - intros -> m m' Hm Hm'.
    assert (Hs : StronglySorted (descending Message.created_at) sorted)
      by apply (sorted_by_order Message.created_at true).
    rewrite <- (firstn_skipn (Z.to_nat limit) sorted) in Hs.
    exact (sorted_app_inv _ _ _ Hs m m' Hm Hm').
  - intros -> m m' Hm Hm'.
    assert (Hs : StronglySorted (ascending Message.created_at) sorted)
      by apply (sorted_by_order Message.created_at false).
    rewrite <- (firstn_skipn (Z.to_nat limit) sorted) in Hs.
    exact (sorted_app_inv _ _ _ Hs m m' Hm Hm').
  - intros Hall. apply skipn_all2. subst sorted.
    rewrite (Permutation_length
               (sorted_by_perm Message.created_at _ _)). lia.
Qed.

Lemma get_messages_limit_keeps_extremes_witness :
  exists rest,
    Permutation (fst (get_messages three_messages None 1 "desc") ++ rest)
                (fake_messages_db three_messages) /\
    forall m',
      In m' rest -> Message.created_at m' <= 9.
Proof.
  destruct (get_messages_limit_keeps_extremes three_messages None 1 "desc")
    as (rest & Hp & Hd & _).
  - lia.
  - discriminate.
  - exists rest. split; [exact Hp|].
    intros m' Hm'.
    apply (Hd eq_refl (Message.mk 2 2 "second" 9) m'); [|exact Hm'].
    simpl. auto.
Defined.
